(** * Per-page profile image cache: Home.jsx and assets/js/main.js

    The repository ships the same feature twice: the React hook
    [usePageImage] with its [ImageUploader] component (src/Home.jsx) and a
    plain script wired to DOM controls (src/assets/js/main.js).  Both keep
    one image reference per page in [localStorage].

    This file embeds both programs over a common model of the browser
    (strings, [localStorage], [FileReader]) and proves what each does. *)

From Stdlib Require Import Ascii String.
From stdpp Require Import base option list strings gmap.

Set Default Proof Using "Type".

(** ** JavaScript strings *)

Module Js.

(** [if (s)], [s && ...], [!s] on a string: only the empty string is falsy. *)
Definition truthy (s : string) : bool :=
  match s with
  | EmptyString => false
  | String _ _ => true
  end.

(** [a || b] where [a] is a string. *)
Definition or_else (a b : string) : string :=
  if truthy a then a else b.

(** [a || b] where [a] may be [null] (a missing attribute). *)
Definition or_else_null (a : option string) (b : string) : string :=
  match a with
  | Some s => or_else s b
  | None => b
  end.

(** White space as [String.prototype.trim] sees it, for the code units a
    Rocq [ascii] can hold: TAB, LF, VT, FF, CR, SPACE and NBSP. *)
Definition is_white (c : ascii) : bool :=
  match c with
  | "009" | "010" | "011" | "012" | "013" | " " | "160" => true
  | _ => false
  end%char.

Fixpoint trimStart (s : string) : string :=
  match s with
  | EmptyString => EmptyString
  | String c rest => if is_white c then trimStart rest else s
  end.

Fixpoint trimEnd (s : string) : string :=
  match s with
  | EmptyString => EmptyString
  | String c rest =>
      match trimEnd rest with
      | EmptyString => if is_white c then EmptyString else String c EmptyString
      | kept => String c kept
      end
  end.

(** [s.trim()] *)
Definition trim (s : string) : string := trimEnd (trimStart s).

End Js.

(** ** The browser: localStorage, FileReader and what the page shows *)

(** What an access to [localStorage] can raise. *)
Inductive Exn := SecurityError | QuotaExceededError.

(** How the browser treats the origin's storage: [Open] accepts every call,
    [Full] refuses writes (quota), [Blocked] refuses every access. *)
Inductive Mode := Open | Full | Blocked.

Record Storage := { items : gmap string string; mode : Mode }.

(** Characters that a double-quoted CSS string does not hold as they are:
    the double quote, the backslash, the line breaks LF, FF and CR, and
    NUL. *)
Definition css_special (c : ascii) : bool :=
  match c with
  | "034" | "092" | "010" | "012" | "013" | "000" => true
  | _ => false
  end%char.

(** The text can stand between the quotes of a CSS [url("...")] and be
    read back as it is. *)
Fixpoint css_plain (s : string) : bool :=
  match s with
  | EmptyString => true
  | String c rest => negb (css_special c) && css_plain rest
  end.

(** The text of a data URL for a MIME type and a base64 payload. *)
Definition data_url (mime base64 : string) : string :=
  "data:" +:+ mime +:+ ";base64," +:+ base64.

(** A [File] the user picked, as [FileReader.readAsDataURL] sees it: its
    MIME type, the base64 text of its bytes, and whether the read succeeds
    at all. The MIME type the browser gives a picked file and the base64
    alphabet hold no quote, backslash, line break or NUL. *)
Record File := {
  mime : string;
  base64 : string;
  readable : bool;
  data_url_plain : css_plain (data_url mime base64) = true
}.

(** [reader.result] once [readAsDataURL] has finished. *)
Definition dataURL (f : File) : string :=
  data_url (mime f) (base64 f).

(** The calls a program makes on its environment, in the order made. *)
Inductive Effect :=
| GetItem (k : string)
| SetItem (k v : string)
| RemoveItem (k : string)
| Paint (u : string)
| ReadAsDataURL (f : File)
| Uncaught (e : Exn).

(** One page in one tab: what it shows ([view]), the origin's storage, the
    file reads still in flight, and the calls made so far. *)
Record World (V : Type) := mkWorld {
  view : V;
  ls : Storage;
  readers : list File;
  log : list Effect
}.
Arguments mkWorld {V}.
Arguments view {V}.
Arguments ls {V}.
Arguments readers {V}.
Arguments log {V}.

(** ** Statements that may throw, over a world that keeps its changes *)

Inductive result (A : Type) := Ok (a : A) | Throw (e : Exn).
Arguments Ok {A}.
Arguments Throw {A}.

Definition M (V A : Type) : Type := World V → result A * World V.

Section Monad.
Context {V : Type}.

Definition ret {A} (a : A) : M V A := λ w, (Ok a, w).

Definition bind {A B} (m : M V A) (k : A → M V B) : M V B :=
  λ w, match m w with
       | (Ok a, w') => k a w'
       | (Throw e, w') => (Throw e, w')
       end.

(** [try { m } catch (e) {}] *)
Definition try_ (m : M V unit) : M V unit :=
  λ w, (Ok tt, (m w).2).

Definition emit (e : Effect) : M V unit :=
  λ w, (Ok tt, mkWorld (view w) (ls w) (readers w) (log w ++ [e])).

Definition set_view (v : V) : M V unit :=
  λ w, (Ok tt, mkWorld v (ls w) (readers w) (log w)).

Definition set_items (m : gmap string string) : M V unit :=
  λ w, (Ok tt, mkWorld (view w) {| items := m; mode := mode (ls w) |}
                       (readers w) (log w)).

Definition set_readers (rs : list File) : M V unit :=
  λ w, (Ok tt, mkWorld (view w) (ls w) rs (log w)).

Definition throw {A} (e : Exn) : M V A := λ w, (Throw e, w).

Definition get_world : M V (World V) := λ w, (Ok w, w).
End Monad.

#[global] Instance M_ret {V} : MRet (M V) := λ A a, ret a.
#[global] Instance M_bind {V} : MBind (M V) := λ A B k m, bind m k.

Module LocalStorage.
Section Calls.
Context {V : Type}.

(** [localStorage.getItem(k)]: [null] when there is no entry. *)
Definition getItem (k : string) : M V (option string) :=
  emit (GetItem k) ;;
  w ← get_world;
  match mode (ls w) with
  | Blocked => throw SecurityError
  | Open | Full => ret (items (ls w) !! k)
  end.

(** [localStorage.setItem(k, v)] *)
Definition setItem (k v : string) : M V unit :=
  emit (SetItem k v) ;;
  w ← get_world;
  match mode (ls w) with
  | Blocked => throw SecurityError
  | Full => throw QuotaExceededError
  | Open => set_items (<[k := v]> (items (ls w)))
  end.

(** [localStorage.removeItem(k)] *)
Definition removeItem (k : string) : M V unit :=
  emit (RemoveItem k) ;;
  w ← get_world;
  match mode (ls w) with
  | Blocked => throw SecurityError
  | Open | Full => set_items (delete k (items (ls w)))
  end.
End Calls.
End LocalStorage.

(** [new FileReader(); reader.onload = ...; reader.readAsDataURL(file)]:
    the read is queued; its [onload] runs when the browser finishes it. *)
Definition readAsDataURL {V} (file : File) : M V unit :=
  emit (ReadAsDataURL file) ;;
  w ← get_world;
  set_readers (readers w ++ [file]).

(** What the user and the browser do to a page. *)
Inductive Event :=
| Load
| SelectFile (files : option (list File))
| FileLoaded (i : nat)
| SetUrl (text : string)
| Clear.

(** [e.target.files?.[0]] and [e.target.files && e.target.files[0]] *)
Definition first_file (files : option (list File)) : option File :=
  files ≫= head.

(** The browser finishes the [i]-th read in flight: the reader leaves the
    queue and, if the file could be read, its [onload] runs on the data URL.
    Neither program installs [onerror], so a failed read runs nothing. *)
Definition fileLoaded {V} (onload : string → M V unit) (i : nat) : M V unit :=
  w ← get_world;
  match readers w !! i with
  | None => mret tt
  | Some f =>
      set_readers (delete i (readers w)) ;;
      if readable f then onload (dataURL f) else mret tt
  end.

(** The browser loads the page (the address is entered, or the page is
    reloaded): a new document showing [v0], and no read in flight, for the
    readers of the document before went with it; the origin's storage is
    what it was. *)
Definition reload {V} (v0 : V) : M V unit :=
  set_view v0 ;; set_readers [].

(** An exception that leaves a handler is reported by the browser. *)
Definition uncaught {V} (m : M V unit) (w : World V) : World V :=
  match m w with
  | (Ok _, w') => w'
  | (Throw x, w') => (emit (Uncaught x) w').2
  end.

(** ** src/Home.jsx: [usePageImage] and [ImageUploader]

    Every component that calls the hook gets a [src] of its own; the model
    follows one instance, the one whose operations [ImageUploader] binds to
    its controls. *)

Module React.
Import LocalStorage.

(** [const key = `profile-image:${pathname || "/"}`] *)
Definition key (pathname : string) : string :=
  "profile-image:" +:+ Js.or_else pathname "/".

(** [useState] of the empty string. *)
Definition initial : string := "".

Section usePageImage.
Variable pathname : string.

Definition setSrc (s : string) : M string unit :=
  emit (Paint s) ;; set_view s.

(** The body of [useEffect]. *)
Definition load : M string unit :=
  cached ← getItem (key pathname);
  match cached with
  | Some c => if Js.truthy c then setSrc c else mret tt
  | None => mret tt
  end.

(** [reader.onload] as [onFile] installs it. *)
Definition onload (dataUrl : string) : M string unit :=
  setSrc dataUrl ;; setItem (key pathname) dataUrl.

Definition onFile (file : File) : M string unit :=
  readAsDataURL file.

Definition setFromUrl (url : string) : M string unit :=
  setSrc url ;; setItem (key pathname) url.

Definition clear : M string unit :=
  setSrc "" ;; removeItem (key pathname).

(** [ImageUploader]: the file input's [onChange]. *)
Definition onChange (files : option (list File)) : M string unit :=
  match first_file files with
  | Some f => onFile f
  | None => mret tt
  end.

(** [ImageUploader]: the Set button, [tempUrl && setFromUrl(tempUrl)]. *)
Definition onSet (tempUrl : string) : M string unit :=
  if Js.truthy tempUrl then setFromUrl tempUrl else mret tt.

(** The browser loads the page and the component mounts: fresh state, then
    the effect. (A mount by navigation inside the running application has
    the same fresh state and effect; it leaves the readers of the instance
    before running, which [reload] does not follow: [Load] stands for
    that mount only where no read is in flight, see [loads_quiet].) *)
Definition activate : M string unit :=
  reload initial ;; load.

Definition handle (e : Event) : M string unit :=
  match e with
  | Load => activate
  | SelectFile files => onChange files
  | FileLoaded i => fileLoaded onload i
  | SetUrl text => onSet text
  | Clear => clear
  end.

Definition step (e : Event) (w : World string) : World string :=
  uncaught (handle e) w.

(** An error that leaves an event handler or a reader callback is
    reported and the page lives on; one that leaves the effect
    unmounts the tree, so nothing after it is handled. *)
Fixpoint run (es : list Event) (w : World string) : World string :=
  match es with
  | [] => w
  | e :: rest =>
      match handle e w, e with
      | (Ok _, w'), _ => run rest w'
      | (Throw x, w'), Load => (emit (Uncaught x) w').2
      | (Throw x, w'), _ => run rest (emit (Uncaught x) w').2
      end
  end.
End usePageImage.

(** What the viewer sees: the [src] handed to [<img>]. *)
Definition visible (w : World string) : string := view w.
End React.

(** ** src/assets/js/main.js *)

Module Script.
Import LocalStorage.

(** [preview.style.backgroundImage]: never assigned, ['none'], or
    [url("...")] around the given string. *)
Inductive Background := Unset | BgNone | BgUrl (url : string).

(** The view is [None] on a page without a [#photoPreview] element. *)
Definition View : Type := option Background.

(** [const page = document.body.getAttribute('data-page') || 'home'] *)
Definition page (attr : option string) : string :=
  Js.or_else_null attr "home".

(** [const LS_KEY = `ant-portfolio-photo:${page}`] *)
Definition LS_KEY (attr : option string) : string :=
  "ant-portfolio-photo:" +:+ page attr.

(** [preview.style.backgroundImage = url ? `url("${url}")` : 'none'].
    The URL goes between the quotes as it is, and the browser reads the
    text it is given as CSS: [none] and a quoted URL of plain characters
    are taken as they are. A URL that is not plain does not come out as
    that quoted URL: a double quote in it ends the string early, and with
    more text after the string the declaration is invalid; the browser
    drops an invalid declaration and the background stays what it was,
    which is what the model does for every text that is not plain. (A text can also
    be written so that what follows the early quote, or a backslash
    escape, is valid CSS for some other picture; what is shown is proved
    for plain texts, and for [quoted_url] where the text is not plain.) *)
Definition setPreview (url : string) : M View unit :=
  w ← get_world;
  match view w with
  | None => mret tt
  | Some _ =>
      emit (Paint url) ;;
      if Js.truthy url
      then if css_plain url then set_view (Some (BgUrl url)) else mret tt
      else set_view (Some BgNone)
  end.

Section Page.
Variable attr : option string.

(** The "Load cached" block. *)
Definition load : M View unit :=
  try_ (cached ← getItem (LS_KEY attr);
        match cached with
        | Some c => if Js.truthy c then setPreview c else mret tt
        | None => mret tt
        end).

(** [reader.onload] as the file input's change handler installs it. *)
Definition onload (dataUrl : string) : M View unit :=
  setPreview dataUrl ;; try_ (setItem (LS_KEY attr) dataUrl).

(** The file input's [change] handler. *)
Definition onFileChange (files : option (list File)) : M View unit :=
  match first_file files with
  | None => mret tt
  | Some file => readAsDataURL file
  end.

(** The click handler of [#setUrlBtn]; [value] is [urlInput.value]. *)
Definition onSetUrl (value : string) : M View unit :=
  let val := Js.trim value in
  if Js.truthy val
  then setPreview val ;; try_ (setItem (LS_KEY attr) val)
  else mret tt.

(** The click handler of [#clearBtn]. *)
Definition onClear : M View unit :=
  setPreview "" ;; try_ (removeItem (LS_KEY attr)).

(** A new document: the preview, if the page has one, has no inline
    background yet. *)
Definition blank_view (v : View) : View :=
  match v with
  | None => None
  | Some _ => Some Unset
  end.

(** Running the script on a freshly loaded page. *)
Definition activate : M View unit :=
  w ← get_world;
  reload (blank_view (view w)) ;; load.

Definition handle (e : Event) : M View unit :=
  match e with
  | Load => activate
  | SelectFile files => onFileChange files
  | FileLoaded i => fileLoaded onload i
  | SetUrl text => onSetUrl text
  | Clear => onClear
  end.

Definition step (e : Event) (w : World View) : World View :=
  uncaught (handle e) w.

Fixpoint run (es : list Event) (w : World View) : World View :=
  match es with
  | [] => w
  | e :: rest => run rest (step e w)
  end.
End Page.

(** What the viewer sees: the URL inside the preview's background. *)
Definition visible (w : World View) : string :=
  match view w with
  | Some (BgUrl u) => u
  | Some BgNone | Some Unset | None => ""
  end.
End Script.

(** The entry stored for a key, as [getItem] would find it. *)
Definition stored {V} (k : string) (w : World V) : option string :=
  items (ls w) !! k.

(** The storage can be read and entries removed (it is not [Blocked]). *)
Definition accessible (s : Storage) : bool :=
  match mode s with
  | Blocked => false
  | Open | Full => true
  end.

(** The storage also takes writes. *)
Definition writable (s : Storage) : bool :=
  match mode s with
  | Open => true
  | Full | Blocked => false
  end.

(** ** Several pages of the site open at once, over one storage *)

(** What is local to one open page. *)
Record Tab (V : Type) := mkTab { shown : V; inflight : list File }.
Arguments mkTab {V}.
Arguments shown {V}.
Arguments inflight {V}.

Section Site.
Context {P : Type} `{Countable P} {V : Type}.

(** The open pages by page identifier, the storage of the origin they
    share, and the calls made so far. *)
Record Site := mkSite {
  disk : Storage;
  tabs : gmap P (Tab V);
  journal : list Effect
}.

(** The world page [p] lives in. *)
Definition world_of (s : Site) (t : Tab V) : World V :=
  mkWorld (shown t) (disk s) (inflight t) (journal s).

(** An event on page [p], handled by that page's program; a page that is
    not open receives none. *)
Definition on_page (step : P → Event → World V → World V)
    (p : P) (e : Event) (s : Site) : Site :=
  match tabs s !! p with
  | None => s
  | Some t =>
      let w' := step p e (world_of s t) in
      mkSite (ls w') (<[p := mkTab (view w') (readers w')]> (tabs s)) (log w')
  end.
End Site.
Arguments Site P {_ _} V.

(** ** Comparing the two programs *)

(** The text of a [SetUrl] event has no white space to trim. *)
Definition trimmed (e : Event) : bool :=
  match e with
  | SetUrl text => bool_decide (Js.trim text = text)
  | Load | SelectFile _ | FileLoaded _ | Clear => true
  end.

(** The text a [SetUrl] event leaves after trimming is plain: it can stand
    between the quotes of the script's [url("...")]. *)
Definition plain_event (e : Event) : bool :=
  match e with
  | SetUrl text => css_plain (Js.trim text)
  | Load | SelectFile _ | FileLoaded _ | Clear => true
  end.

(** An entry, if there is one, is plain. *)
Definition plain_entry (entry : option string) : bool :=
  match entry with
  | Some c => css_plain c
  | None => true
  end.

(** With [n] reads in flight at the start, no [Load] of the sequence comes
    while a read is in flight. Then loading the page in the browser and
    mounting the component by navigation inside the application are the
    same thing: fresh state, the effect, and no reader of an earlier
    instance left to complete. *)
Fixpoint loads_quiet (n : nat) (es : list Event) : bool :=
  match es with
  | [] => true
  | Load :: rest => Nat.eqb n 0 && loads_quiet 0 rest
  | SelectFile files :: rest =>
      loads_quiet (match first_file files with
                   | Some _ => S n
                   | None => n
                   end) rest
  | FileLoaded i :: rest =>
      loads_quiet (if Nat.ltb i n then Nat.pred n else n) rest
  | SetUrl _ :: rest | Clear :: rest => loads_quiet n rest
  end.

(** The React page at [pathname] and the script page with [data-page]
    attribute [attr] show the same image, hold the same entry each under
    its own key, and wait for the same file reads. *)
Definition agree (pathname : string) (attr : option string)
    (wr : World string) (ws : World Script.View) : Prop :=
  React.visible wr = Script.visible ws ∧
  stored (React.key pathname) wr = stored (Script.LS_KEY attr) ws ∧
  readers wr = readers ws.

(** The script's page has a [#photoPreview] element. *)
Definition has_preview (w : World Script.View) : bool :=
  match view w with
  | Some _ => true
  | None => false
  end.

(** The [SetItem] calls among some effects. *)
Definition writes (l : list Effect) : list (string * string) :=
  omap (λ e, match e with SetItem k v => Some (k, v) | _ => None end) l.

(** ** What one step may do to the storage *)

(** From [w] to [w'] the storage mode is kept, calls are only added, every
    value written is a non-empty string written under [k], and the items
    differ at most by one write or one removal at [k]. *)
Record touches {V} (k : string) (w w' : World V) : Prop := {
  touches_mode : mode (ls w') = mode (ls w);
  touches_log : ∃ l, log w' = log w ++ l ∧
                     ∀ k' v, (k', v) ∈ writes l → k' = k ∧ v ≠ "";
  touches_items : items (ls w') = items (ls w) ∨
                  (∃ v, v ≠ "" ∧ items (ls w') = <[k := v]> (items (ls w))) ∨
                  items (ls w') = delete k (items (ls w))
}.

(** Two worlds show the same, store the same and wait for the same reads;
    the calls made to get there may differ. *)
Definition same_state {V} (w w' : World V) : Prop :=
  view w = view w' ∧ ls w = ls w' ∧ readers w = readers w'.

(** A browser with nothing stored, before the page has run. *)
Definition empty_storage : Storage := {| items := ∅; mode := Open |}.

Definition fresh_react : World string :=
  mkWorld React.initial empty_storage [] [].

Definition fresh_script : World Script.View :=
  mkWorld (Some Script.Unset) empty_storage [] [].

(** ** Concrete browsers, pages and files *)

(** A browser that denies the page its storage. *)
Definition blocked_storage : Storage := {| items := ∅; mode := Blocked |}.

(** A small PNG picked in the file dialog. *)
Definition png : File :=
  {| mime := "image/png"; base64 := "iVBORw0KGgo="; readable := true;
     data_url_plain := eq_refl |}.

(** Two pages of each program open side by side, nothing stored yet. *)
Definition two_react_pages (p q : string) : Site string string :=
  mkSite empty_storage
         (<[p := mkTab React.initial []]> {[ q := mkTab React.initial [] ]}) [].

Definition two_script_pages (a b : option string)
    : Site (option string) Script.View :=
  mkSite empty_storage
         (<[a := mkTab (Some Script.Unset) []]>
            {[ b := mkTab (Some Script.Unset) [] ]}) [].

(** ** src/assets/js/main.js: the active navigation link *)

Module Nav.

(** [s.split('/')]: the pieces between the slashes, at least one. *)
Fixpoint split_slash (s : string) : list string :=
  match s with
  | EmptyString => [EmptyString]
  | String c rest =>
      if Ascii.eqb c "/" then EmptyString :: split_slash rest
      else match split_slash rest with
           | piece :: pieces => String c piece :: pieces
           | [] => [String c EmptyString]
           end
  end.

(** [const path = location.pathname.split('/').pop() || 'index.html'] *)
Definition path (pathname : string) : string :=
  Js.or_else_null (last (split_slash pathname)) "index.html".

(** An [<a class="nav__link">]: its [href] attribute, if it has one, and
    its class list. *)
Record Link := mkLink { href : option string; classList : list string }.

(** [classList.add(token)]: the list is a set kept in order. *)
Definition add (token : string) (classes : list string) : list string :=
  if bool_decide (token ∈ classes) then classes else classes ++ [token].

(** [(href === path) || (href === 'index.html' && path === '')] *)
Definition matches (h : option string) (path : string) : bool :=
  bool_decide (h = Some path) ||
  (bool_decide (h = Some "index.html") && bool_decide (path = "")).

(** The body of the [forEach]. *)
Definition mark (path : string) (a : Link) : Link :=
  if matches (href a) path
  then mkLink (href a) (add "active" (classList a))
  else a.

(** The whole block, over the links [$$('.nav__link')] finds. *)
Definition highlight (pathname : string) (links : list Link) : list Link :=
  mark (path pathname) <$> links.

Definition active (a : Link) : Prop := "active" ∈ classList a.

(** The string has a slash in it. *)
Fixpoint has_slash (s : string) : bool :=
  match s with
  | EmptyString => false
  | String c rest => Ascii.eqb c "/" || has_slash rest
  end.

End Nav.

(** ** src/assets/js/main.js: the text [setPreview] assigns *)

(** The double quote character. *)
Definition dquote : string := String (ascii_of_nat 34) EmptyString.



(** ** src/Home.jsx: the Home page, where two components call the hook *)

Module HomePage.

(** [Hero] calls [usePageImage] for the large picture, and renders an
    [ImageUploader], which calls it again: two [src] states on one key. *)
Record Srcs := mkSrcs { hero : string; uploader : string }.

(** A statement of one hook instance, run inside the page. *)
Definition zoom {A} (get : Srcs → string) (set : string → Srcs → Srcs)
    (m : M string A) : M Srcs A :=
  λ w, let '(r, w') := m (mkWorld (get (view w)) (ls w) (readers w) (log w)) in
       (r, mkWorld (set (view w') (view w)) (ls w') (readers w') (log w')).

Definition in_hero {A} : M string A → M Srcs A :=
  zoom hero (λ s v, mkSrcs s (uploader v)).

Definition in_uploader {A} : M string A → M Srcs A :=
  zoom uploader (λ s v, mkSrcs (hero v) s).

Section Page.
Variable pathname : string.

(** Mounting the page: both states start empty, then both effects run,
    the child's ([ImageUploader]) before the parent's ([Hero]). *)
Definition activate : M Srcs unit :=
  reload (mkSrcs React.initial React.initial) ;;
  in_uploader (React.load pathname) ;;
  in_hero (React.load pathname).

(** The controls are those of [ImageUploader], bound to its instance;
    [Hero] only takes [src] from its own. *)
Definition handle (e : Event) : M Srcs unit :=
  match e with
  | Load => activate
  | SelectFile _ | FileLoaded _ | SetUrl _ | Clear =>
      in_uploader (React.handle pathname e)
  end.

Definition step (e : Event) (w : World Srcs) : World Srcs :=
  uncaught (handle e) w.
End Page.

(** What [Hero] renders in the large frame: [src ? <img> : placeholder]. *)
Inductive Picture := Img (src : string) | Placeholder.

Definition hero_picture (w : World Srcs) : Picture :=
  if Js.truthy (hero (view w)) then Img (hero (view w)) else Placeholder.

(** What [ImageUploader] renders beside its controls: [src && <img>]. *)
Definition thumbnail (w : World Srcs) : option string :=
  if Js.truthy (uploader (view w)) then Some (uploader (view w)) else None.

End HomePage.

(** ** More ways to look at a world *)

(** White space only (or nothing at all). *)
Fixpoint blank (s : string) : bool :=
  match s with
  | EmptyString => true
  | String c rest => Js.is_white c && blank rest
  end.

(** The [Uncaught] reports among some effects. *)
Definition errors (l : list Effect) : list Exn :=
  omap (λ e, match e with Uncaught x => Some x | _ => None end) l.

(** What is shown is what is stored: the entry's text, or nothing when
    there is no entry. *)
Definition in_sync (visible : string) (entry : option string) : Prop :=
  default "" entry = visible.

(** A world for the Home page with nothing stored. *)
Definition fresh_home : World HomePage.Srcs :=
  mkWorld (HomePage.mkSrcs React.initial React.initial) empty_storage [] [].

(** A browser whose storage holds one entry and takes no more. *)
Definition full_work : World string :=
  mkWorld "old.png"
    {| items := {[ "profile-image:/work" := "old.png" ]}; mode := Full |}
    [] [].

Definition full_work_script : World Script.View :=
  mkWorld (Some (Script.BgUrl "old.png"))
    {| items := {[ "ant-portfolio-photo:work" := "old.png" ]}; mode := Full |}
    [] [].

(** A second picture. *)
Definition jpg : File :=
  {| mime := "image/jpeg"; base64 := "/9j/4AAQ"; readable := true;
     data_url_plain := eq_refl |}.

(** A URL with a double quote in it, as the URL field lets it through. *)
Definition quoted_url : string := "a" +:+ dquote +:+ "b.png".

(** A navigation bar as a page of the site may have it. *)
Definition nav_links : list Nav.Link :=
  [ Nav.mkLink (Some "index.html") ["nav__link"];
    Nav.mkLink (Some "work.html") ["nav__link"];
    Nav.mkLink (Some "projects.html") ["nav__link"] ].

(** * Proofs *)

(** ** Running the handlers *)

Ltac unfold_m :=
  unfold React.step, Script.step, uncaught, React.handle, Script.handle,
    React.activate, Script.activate, React.onSet, React.onChange, React.clear,
    React.setFromUrl, React.onFile, React.onload, React.load, React.setSrc,
    Script.onSetUrl, Script.onClear, Script.onFileChange, Script.onload,
    Script.load, Script.setPreview, Script.blank_view, fileLoaded, reload,
    readAsDataURL, LocalStorage.getItem, LocalStorage.setItem,
    LocalStorage.removeItem, try_, mbind, mret, M_bind, M_ret, bind, ret,
    emit, set_view, set_items, set_readers, throw, get_world in *.

Ltac exec :=
  unfold_m; cbn [view ls readers log items mode fst snd] in *.

Ltac open_world w :=
  let v := fresh "v" in
  let it := fresh "it" in
  let md := fresh "md" in
  let rs := fresh "rs" in
  let lg := fresh "lg" in
  destruct w as [v [it md] rs lg];
  unfold stored, accessible, writable, has_preview, React.visible,
    Script.visible in *;
  cbn [view ls readers log items mode] in *; subst.

Ltac tidy := rewrite <- ?app_assoc; cbn [app]; try reflexivity.

Section Strings.
Lemma truthy_true s : Js.truthy s = true ↔ s ≠ "".
Proof. destruct s; cbn; split; congruence. Qed.

Lemma truthy_false s : Js.truthy s = false ↔ s = "".
Proof. destruct s; cbn; split; congruence. Qed.

Lemma truthy_dataURL f : Js.truthy (dataURL f) = true.
Proof. reflexivity. Qed.

Lemma dataURL_plain f : css_plain (dataURL f) = true.
Proof. apply data_url_plain. Qed.

Lemma trimStart_truthy s : Js.truthy (Js.trimStart s) = true → Js.truthy s = true.
Proof. destruct s; [done | reflexivity]. Qed.

Lemma trimEnd_truthy s : Js.truthy (Js.trimEnd s) = true → Js.truthy s = true.
Proof. destruct s; [done | reflexivity]. Qed.

Lemma trim_truthy s : Js.truthy (Js.trim s) = true → Js.truthy s = true.
Proof.
  unfold Js.trim. intros Ht.
  by apply trimStart_truthy, trimEnd_truthy.
Qed.

Lemma or_else_truthy a b : Js.truthy b = true → Js.truthy (Js.or_else a b) = true.
Proof. unfold Js.or_else. by destruct (Js.truthy a) eqn:Ha. Qed.

Lemma react_key_inj p q :
  React.key p = React.key q ↔ Js.or_else p "/" = Js.or_else q "/".
Proof.
  unfold React.key. split; [|by intros ->].
  apply (inj (String.app _)).
Qed.

Lemma script_key_inj a b :
  Script.LS_KEY a = Script.LS_KEY b ↔ Script.page a = Script.page b.
Proof.
  unfold Script.LS_KEY. split; [|by intros ->].
  apply (inj (String.app _)).
Qed.
End Strings.

(** ** What one step can do to the storage *)

Section Touches.
Context {V : Type}.
Implicit Types w : World V.

Lemma touches_other k k' w (w' : World V) :
  touches k w w' → k' ≠ k → stored k' w' = stored k' w.
Proof.
  intros [_ _ Hi] Hne. unfold stored.
  destruct Hi as [-> | [(v & _ & ->) | ->]]; [done | |].
  - by rewrite lookup_insert_ne.
  - by rewrite lookup_delete_ne.
Qed.

Lemma touches_nonempty k w (w' : World V) :
  touches k w w' → stored k w ≠ Some "" → stored k w' ≠ Some "".
Proof.
  intros [_ _ Hi] Hw. unfold stored in *.
  destruct Hi as [-> | [(v & Hv & ->) | ->]]; [done | |].
  - rewrite lookup_insert_eq. congruence.
  - by rewrite lookup_delete_eq.
Qed.

Lemma touches_refl k w : touches k w w.
Proof.
  split; [done | | by left].
  exists []. rewrite app_nil_r. split; [done |].
  intros k' v Hin. cbn in Hin. by apply elem_of_nil in Hin.
Qed.
End Touches.

Lemma writes_app l1 l2 : writes (l1 ++ l2) = writes l1 ++ writes l2.
Proof. unfold writes. apply omap_app. Qed.

Ltac no_writes :=
  let k := fresh "k" in
  let v := fresh "v" in
  let Hin := fresh "Hin" in
  intros k v Hin; cbn in Hin;
  repeat match goal with
    | H : _ ∈ [] |- _ => by apply elem_of_nil in H
    | H : _ ∈ _ :: _ |- _ => apply elem_of_cons in H as [H | H]
    | H : (_, _) = (_, _) |- _ => injection H as -> ->
    end.

Ltac touch_log l :=
  exists l; split;
  [ rewrite <- ?app_assoc, ?app_nil_r; cbn [app]; reflexivity
  | no_writes; try (split; [reflexivity | done]) ].

Lemma react_step_touches p e w : touches (React.key p) w (React.step p e w).
Proof.
  destruct e as [| files | i | text |]; open_world w; exec.
  - (* Load *)
    destruct md; exec; try destruct (it !! React.key p) as [c|] eqn:Hc;
      try destruct (Js.truthy c) eqn:Ht; exec;
      (split; cbn [ls log mode items]; [done | | by left]).
    all: first [ touch_log [GetItem (React.key p); Paint c]
               | touch_log [GetItem (React.key p)]
               | touch_log [GetItem (React.key p); Uncaught SecurityError] ].
  - (* SelectFile *)
    destruct (first_file files) as [f|]; exec; [| apply touches_refl].
    split; cbn [ls log mode items]; [done | | by left].
    touch_log [ReadAsDataURL f].
  - (* FileLoaded *)
    destruct (rs !! i) as [f|] eqn:Hf; exec; [| apply touches_refl].
    destruct (readable f); exec.
    + assert (Hd : dataURL f ≠ "") by (apply truthy_true, truthy_dataURL).
      destruct md; exec; (split; cbn [ls log mode items]; [done | |]).
      all: first [ by right; left; eexists | by left | idtac ].
      all: first
        [ touch_log [Paint (dataURL f); SetItem (React.key p) (dataURL f)]
        | touch_log [Paint (dataURL f); SetItem (React.key p) (dataURL f);
                     Uncaught QuotaExceededError]
        | touch_log [Paint (dataURL f); SetItem (React.key p) (dataURL f);
                     Uncaught SecurityError] ].
    + split; cbn [ls log mode items]; [done | | by left].
      touch_log (@nil Effect).
  - (* SetUrl *)
    destruct (Js.truthy text) eqn:Ht; exec; [| apply touches_refl].
    apply truthy_true in Ht.
    destruct md; exec; (split; cbn [ls log mode items]; [done | |]).
    all: first [ by right; left; eexists | by left | idtac ].
    all: first
      [ touch_log [Paint text; SetItem (React.key p) text]
      | touch_log [Paint text; SetItem (React.key p) text;
                   Uncaught QuotaExceededError]
      | touch_log [Paint text; SetItem (React.key p) text;
                   Uncaught SecurityError] ].
  - (* Clear *)
    destruct md; exec; (split; cbn [ls log mode items]; [done | |]).
    all: first [ by right; right | by left | idtac ].
    all: first
      [ touch_log [Paint ""; RemoveItem (React.key p)]
      | touch_log [Paint ""; RemoveItem (React.key p); Uncaught SecurityError] ].
Qed.

Lemma script_step_touches a e w : touches (Script.LS_KEY a) w (Script.step a e w).
Proof.
  destruct e as [| files | i | text |]; open_world w; exec.
  - (* Load *)
    destruct md, v as [bg|]; exec;
      try destruct (it !! Script.LS_KEY a) as [c|] eqn:Hc;
      try destruct (Js.truthy c) eqn:Ht;
      try destruct (css_plain c) eqn:Hp; exec;
      (split; cbn [ls log mode items]; [done | | by left]).
    all: first [ touch_log [GetItem (Script.LS_KEY a); Paint c]
               | touch_log [GetItem (Script.LS_KEY a)] ].
  - (* SelectFile *)
    destruct (first_file files) as [f|]; exec; [| apply touches_refl].
    split; cbn [ls log mode items]; [done | | by left].
    touch_log [ReadAsDataURL f].
  - (* FileLoaded *)
    destruct (rs !! i) as [f|] eqn:Hf; exec; [| apply touches_refl].
    destruct (readable f); exec.
    + assert (Hd : dataURL f ≠ "") by (apply truthy_true, truthy_dataURL).
      destruct md, v as [bg|]; exec;
        rewrite ?truthy_dataURL, ?dataURL_plain; exec;
        (split; cbn [ls log mode items]; [done | |]).
      all: first [ by right; left; eexists | by left | idtac ].
      all: first
        [ touch_log [Paint (dataURL f); SetItem (Script.LS_KEY a) (dataURL f)]
        | touch_log [SetItem (Script.LS_KEY a) (dataURL f)] ].
    + split; cbn [ls log mode items]; [done | | by left].
      touch_log (@nil Effect).
  - (* SetUrl *)
    destruct (Js.truthy (Js.trim text)) eqn:Ht; exec; [| apply touches_refl].
    apply truthy_true in Ht.
    destruct md, v as [bg|], (css_plain (Js.trim text)); exec;
      (split; cbn [ls log mode items]; [done | |]).
    all: first [ by right; left; eexists | by left | idtac ].
    all: first
      [ touch_log [Paint (Js.trim text);
                   SetItem (Script.LS_KEY a) (Js.trim text)]
      | touch_log [SetItem (Script.LS_KEY a) (Js.trim text)] ].
  - (* Clear *)
    destruct md, v as [bg|]; exec; simpl;
      (split; cbn [ls log mode items]; [done | |]).
    all: first [ by right; right | by left | idtac ].
    all: first
      [ touch_log [Paint ""; RemoveItem (Script.LS_KEY a)]
      | touch_log [RemoveItem (Script.LS_KEY a)] ].
Qed.

Lemma touches_trans {V} k (w1 w2 w3 : World V) :
  touches k w1 w2 → touches k w2 w3 → touches k w1 w3.
Proof.
  intros [Hm1 (l1 & Hl1 & Hw1) Hi1] [Hm2 (l2 & Hl2 & Hw2) Hi2].
  split.
  - congruence.
  - exists (l1 ++ l2). split.
    + by rewrite Hl2, Hl1, app_assoc.
    + intros k' v. rewrite writes_app, elem_of_app. intros [?|?]; auto.
  - destruct Hi2 as [-> | [(v & Hv & ->) | ->]]; [done | |].
    + right; left. exists v. split; [done |].
      destruct Hi1 as [-> | [(v' & _ & ->) | ->]]; [done | |].
      * by rewrite insert_insert_eq.
      * by rewrite insert_delete_eq.
    + right; right.
      destruct Hi1 as [-> | [(v' & _ & ->) | ->]]; [done | |].
      * by rewrite delete_insert_eq.
      * by rewrite delete_delete_eq.
Qed.

Lemma script_run_touches a es w :
  touches (Script.LS_KEY a) w (Script.run a es w).
Proof.
  revert w. induction es as [| e es IH]; intros w; cbn [Script.run].
  - apply touches_refl.
  - eapply touches_trans; [apply script_step_touches | apply IH].
Qed.

Lemma react_run_cons p e es w :
  React.run p (e :: es) w = React.step p e w ∨
  React.run p (e :: es) w = React.run p es (React.step p e w).
Proof.
  cbn [React.run]. unfold React.step, uncaught.
  destruct (React.handle p e w) as [[[]|x] w']; [by right |].
  destruct e; auto.
Qed.

Lemma react_run_touches p es w :
  touches (React.key p) w (React.run p es w).
Proof.
  revert w. induction es as [| e es IH]; intros w.
  - apply touches_refl.
  - destruct (react_run_cons p e es w) as [-> | ->].
    + apply react_step_touches.
    + eapply touches_trans; [apply react_step_touches | apply IH].
Qed.

(** ** The handlers on a storage that works *)

Section ReactSteps.
Variable p : string.
Implicit Types w : World string.

Lemma react_set_url u w :
  writable (ls w) = true → Js.truthy u = true →
  React.step p (SetUrl u) w =
    mkWorld u {| items := <[React.key p := u]> (items (ls w));
                 mode := mode (ls w) |}
            (readers w) (log w ++ [Paint u; SetItem (React.key p) u]).
Proof.
  intros Hm Hu. open_world w. destruct md; try discriminate.
  exec. rewrite Hu. exec. by tidy.
Qed.

Lemma react_set_url_empty w : React.step p (SetUrl "") w = w.
Proof. reflexivity. Qed.

Lemma react_clear w :
  accessible (ls w) = true →
  React.step p Clear w =
    mkWorld "" {| items := delete (React.key p) (items (ls w));
                  mode := mode (ls w) |}
            (readers w) (log w ++ [Paint ""; RemoveItem (React.key p)]).
Proof.
  intros Hm. open_world w. destruct md; try discriminate; exec; by tidy.
Qed.

Lemma react_load_found c w :
  accessible (ls w) = true →
  stored (React.key p) w = Some c → Js.truthy c = true →
  React.step p Load w =
    mkWorld c (ls w) [] (log w ++ [GetItem (React.key p); Paint c]).
Proof.
  intros Hm Hs Hc. open_world w.
  destruct md; try discriminate; exec; rewrite Hs, Hc; exec; by tidy.
Qed.

Lemma react_load_absent w :
  accessible (ls w) = true →
  stored (React.key p) w = None ∨ stored (React.key p) w = Some "" →
  React.step p Load w =
    mkWorld "" (ls w) [] (log w ++ [GetItem (React.key p)]).
Proof.
  intros Hm Hs. open_world w.
  destruct md; try discriminate; exec; by destruct Hs as [-> | ->].
Qed.

Lemma react_select files f w :
  first_file files = Some f →
  React.step p (SelectFile files) w =
    mkWorld (view w) (ls w) (readers w ++ [f]) (log w ++ [ReadAsDataURL f]).
Proof. intros Hf. open_world w. exec. by rewrite Hf. Qed.

Lemma react_select_none files w :
  first_file files = None → React.step p (SelectFile files) w = w.
Proof. intros Hf. open_world w. exec. by rewrite Hf. Qed.

Lemma react_file_loaded i f w :
  writable (ls w) = true →
  readers w !! i = Some f → readable f = true →
  React.step p (FileLoaded i) w =
    mkWorld (dataURL f)
            {| items := <[React.key p := dataURL f]> (items (ls w));
               mode := mode (ls w) |}
            (delete i (readers w))
            (log w ++ [Paint (dataURL f); SetItem (React.key p) (dataURL f)]).
Proof.
  intros Hm Hi Hf. open_world w. destruct md; try discriminate.
  exec. rewrite Hi. exec. rewrite Hf. exec. by tidy.
Qed.

Lemma react_run_step e es w :
  accessible (ls w) = true →
  React.run p (e :: es) w = React.run p es (React.step p e w).
Proof.
  intros Hm. cbn [React.run]. unfold React.step, uncaught.
  destruct (React.handle p e w) as [[[]|x] w'] eqn:He; [done |].
  destruct e; try done.
  open_world w. destruct md; try discriminate; exec;
    repeat case_match; simplify_eq.
Qed.
End ReactSteps.

Section ScriptSteps.
Variable a : option string.
Implicit Types w : World Script.View.

Lemma script_handle_ok e w : (Script.handle a e w).1 = Ok ().
Proof.
  destruct e; open_world w; exec; repeat case_match; exec; try done.
Qed.

Lemma script_step_handle e w : Script.step a e w = (Script.handle a e w).2.
Proof.
  unfold Script.step, uncaught. pose proof (script_handle_ok e w) as Hok.
  destruct (Script.handle a e w) as [[[]|x] w']; [done | discriminate].
Qed.

Lemma script_set_url u w :
  writable (ls w) = true → has_preview w = true →
  Js.truthy (Js.trim u) = true → css_plain (Js.trim u) = true →
  Script.step a (SetUrl u) w =
    mkWorld (Some (Script.BgUrl (Js.trim u)))
            {| items := <[Script.LS_KEY a := Js.trim u]> (items (ls w));
               mode := mode (ls w) |}
            (readers w)
            (log w ++ [Paint (Js.trim u);
                       SetItem (Script.LS_KEY a) (Js.trim u)]).
Proof.
  intros Hm Hv Hu Hp. open_world w.
  destruct md, v; try discriminate. exec. rewrite Hu. exec.
  rewrite ?Hu, ?Hp. simpl. by tidy.
Qed.

(** A URL that is not plain is stored all the same; the background stays
    what it was. *)
Lemma script_set_url_garbled u w :
  writable (ls w) = true → has_preview w = true →
  Js.truthy (Js.trim u) = true → css_plain (Js.trim u) = false →
  Script.step a (SetUrl u) w =
    mkWorld (view w)
            {| items := <[Script.LS_KEY a := Js.trim u]> (items (ls w));
               mode := mode (ls w) |}
            (readers w)
            (log w ++ [Paint (Js.trim u);
                       SetItem (Script.LS_KEY a) (Js.trim u)]).
Proof.
  intros Hm Hv Hu Hp. open_world w.
  destruct md, v; try discriminate. exec. rewrite Hu. exec.
  rewrite ?Hu, ?Hp. simpl. by tidy.
Qed.

Lemma script_set_url_blank u w :
  Js.trim u = "" → Script.step a (SetUrl u) w = w.
Proof. intros Hu. open_world w. exec. by rewrite Hu. Qed.

Lemma script_clear w :
  accessible (ls w) = true →
  Script.step a Clear w =
    mkWorld (match view w with
             | Some _ => Some Script.BgNone
             | None => None
             end)
            {| items := delete (Script.LS_KEY a) (items (ls w));
               mode := mode (ls w) |}
            (readers w)
            (log w ++ match view w with
                      | Some _ => [Paint ""; RemoveItem (Script.LS_KEY a)]
                      | None => [RemoveItem (Script.LS_KEY a)]
                      end).
Proof.
  intros Hm. open_world w.
  destruct md, v; try discriminate; exec; simpl; by tidy.
Qed.

Lemma script_load_found c w :
  accessible (ls w) = true → has_preview w = true →
  stored (Script.LS_KEY a) w = Some c → Js.truthy c = true →
  css_plain c = true →
  Script.step a Load w =
    mkWorld (Some (Script.BgUrl c)) (ls w) []
            (log w ++ [GetItem (Script.LS_KEY a); Paint c]).
Proof.
  intros Hm Hv Hs Hc Hp. open_world w.
  destruct md, v; try discriminate; exec; rewrite Hs, Hc; exec;
    rewrite ?Hc, ?Hp; simpl; by tidy.
Qed.

(** An entry that is not plain is read and handed to the preview, which
    does not take it: the new page shows nothing. *)
Lemma script_load_garbled c w :
  accessible (ls w) = true → has_preview w = true →
  stored (Script.LS_KEY a) w = Some c → Js.truthy c = true →
  css_plain c = false →
  Script.step a Load w =
    mkWorld (Some Script.Unset) (ls w) []
            (log w ++ [GetItem (Script.LS_KEY a); Paint c]).
Proof.
  intros Hm Hv Hs Hc Hp. open_world w.
  destruct md, v; try discriminate; exec; rewrite Hs, Hc; exec;
    rewrite ?Hc, ?Hp; simpl; by tidy.
Qed.

Lemma script_load_absent w :
  accessible (ls w) = true →
  stored (Script.LS_KEY a) w = None ∨ stored (Script.LS_KEY a) w = Some "" →
  Script.step a Load w =
    mkWorld (Script.blank_view (view w)) (ls w) []
            (log w ++ [GetItem (Script.LS_KEY a)]).
Proof.
  intros Hm Hs. open_world w.
  destruct md; try discriminate; exec; by destruct Hs as [-> | ->].
Qed.

Lemma script_select files f w :
  first_file files = Some f →
  Script.step a (SelectFile files) w =
    mkWorld (view w) (ls w) (readers w ++ [f]) (log w ++ [ReadAsDataURL f]).
Proof. intros Hf. open_world w. exec. by rewrite Hf. Qed.

Lemma script_select_none files w :
  first_file files = None → Script.step a (SelectFile files) w = w.
Proof. intros Hf. open_world w. exec. by rewrite Hf. Qed.

Lemma script_file_loaded i f w :
  writable (ls w) = true → has_preview w = true →
  readers w !! i = Some f → readable f = true →
  Script.step a (FileLoaded i) w =
    mkWorld (Some (Script.BgUrl (dataURL f)))
            {| items := <[Script.LS_KEY a := dataURL f]> (items (ls w));
               mode := mode (ls w) |}
            (delete i (readers w))
            (log w ++ [Paint (dataURL f);
                       SetItem (Script.LS_KEY a) (dataURL f)]).
Proof.
  intros Hm Hv Hi Hf. open_world w. destruct md, v; try discriminate.
  exec. rewrite Hi. exec. rewrite Hf. exec.
  rewrite truthy_dataURL, dataURL_plain. simpl. by tidy.
Qed.
End ScriptSteps.

Lemma writable_accessible s : writable s = true → accessible s = true.
Proof. unfold writable, accessible. by destruct (mode s). Qed.

Lemma react_step_accessible p e w :
  accessible (ls (React.step p e w)) = accessible (ls w).
Proof.
  unfold accessible. by rewrite (touches_mode _ _ _ (react_step_touches p e w)).
Qed.

Lemma script_step_accessible a e w :
  accessible (ls (Script.step a e w)) = accessible (ls w).
Proof.
  unfold accessible. by rewrite (touches_mode _ _ _ (script_step_touches a e w)).
Qed.

Lemma react_run_two p e1 e2 w :
  accessible (ls w) = true →
  React.run p [e1; e2] w = React.step p e2 (React.step p e1 w).
Proof.
  intros Hm. rewrite react_run_step by done.
  rewrite react_run_step by by rewrite react_step_accessible.
  reflexivity.
Qed.

(** ** Pages side by side *)

(** An event on one page leaves the other open pages as they are. *)
Lemma on_page_tabs_other {P} `{Countable P} {V}
    (step : P → Event → World V → World V) (p q : P) (e : Event)
    (s : Site P V) :
  p ≠ q → tabs (on_page step p e s) !! q = tabs s !! q.
Proof.
  intros Hne. unfold on_page. destruct (tabs s !! p) as [t|]; [| done].
  cbn. by rewrite lookup_insert_ne.
Qed.

(** An event on one page leaves the entries under other keys alone, when
    the page's program only touches its own key. *)
Lemma on_page_disk_other {P} `{Countable P} {V}
    (step : P → Event → World V → World V) (key : P → string)
    (p : P) (e : Event) (s : Site P V) (k : string) :
  (∀ w, touches (key p) w (step p e w)) →
  k ≠ key p →
  items (disk (on_page step p e s)) !! k = items (disk s) !! k.
Proof.
  intros Hstep Hne. unfold on_page. destruct (tabs s !! p) as [t|]; [| done].
  cbn. apply (touches_other _ _ _ _ (Hstep (world_of s t)) Hne).
Qed.

(** ** The two programs side by side *)

Lemma script_step_has_preview a e w :
  has_preview (Script.step a e w) = has_preview w.
Proof.
  destruct e; open_world w; destruct v as [bg|], md; exec; try done;
    repeat (first [ destruct (it !! _) as [?|]
                  | destruct (first_file _) as [?|]
                  | destruct (rs !! _) as [?|]
                  | destruct (readable _)
                  | destruct (Js.truthy _)
                  | destruct (css_plain _) ];
            simpl; try done).
Qed.

Lemma script_run_has_preview a es w :
  has_preview (Script.run a es w) = has_preview w.
Proof.
  revert w. induction es as [| e es IH]; intros w; [done |].
  cbn [Script.run]. by rewrite IH, script_step_has_preview.
Qed.

Lemma script_step_plain_entry a e w :
  plain_event e = true →
  plain_entry (stored (Script.LS_KEY a) w) = true →
  plain_entry (stored (Script.LS_KEY a) (Script.step a e w)) = true.
Proof.
  intros He Hw. rewrite script_step_handle.
  destruct e as [| files | i | text |]; open_world w; exec.
  - (* Load *)
    destruct v as [bg|], md; simpl; try done.
    all: destruct (it !! Script.LS_KEY a) as [c|] eqn:Hc; simpl;
      rewrite ?Hc; try done.
    all: destruct (Js.truthy c); simpl; rewrite ?Hc; try done.
    all: destruct (css_plain c) eqn:Hp; simpl; by rewrite ?Hc.
  - (* SelectFile *)
    by destruct (first_file files).
  - (* FileLoaded *)
    destruct (rs !! i) as [f|]; exec; [| done].
    destruct (readable f); exec; [| done].
    rewrite ?truthy_dataURL, ?dataURL_plain.
    destruct v as [bg|], md; exec;
      rewrite ?truthy_dataURL, ?dataURL_plain; simpl; try done.
    all: by rewrite lookup_insert_eq; apply dataURL_plain.
  - (* SetUrl *)
    cbn in He.
    destruct (Js.truthy (Js.trim text)) eqn:Ht; simpl; [| done].
    destruct v as [bg|], md; simpl; rewrite ?Ht, ?He; simpl; try done.
    all: by rewrite lookup_insert_eq.
  - (* Clear *)
    destruct v as [bg|], md; simpl; try done.
    all: by rewrite lookup_delete_eq.
Qed.

Lemma step_agree p a e wr ws :
  trimmed e = true →
  plain_event e = true →
  accessible (ls wr) = true →
  mode (ls wr) = mode (ls ws) →
  has_preview ws = true →
  plain_entry (stored (Script.LS_KEY a) ws) = true →
  agree p a wr ws →
  agree p a (React.step p e wr) (Script.step a e ws).
Proof.
  intros Ht Hp Hacc Hmode Hv Hpe (Hvis & Hst & Hrs). unfold agree.
  destruct wr as [src [itr mdr] rsr lgr], ws as [[bg|] [its mds] rss lgs];
    unfold stored, accessible, has_preview, React.visible, Script.visible in *;
    cbn [view ls readers log items mode] in *; try discriminate; subst.
  destruct e as [| files | i | text |]; exec.
  - (* Load *)
    destruct mds; try discriminate; simpl; rewrite Hst;
      destruct (its !! Script.LS_KEY a) as [c|] eqn:Hc.
    all: cbn in Hpe.
    all: try destruct (Js.truthy c) eqn:Ht'; simpl; rewrite ?Ht', ?Hc, ?Hpe;
      simpl; rewrite ?Hc.
    all: done.
  - (* SelectFile *)
    destruct (first_file files) as [f|]; simpl; done.
  - (* FileLoaded *)
    destruct (rss !! i) as [f|]; [| done].
    destruct (readable f); exec; [| done].
    rewrite ?truthy_dataURL, ?dataURL_plain.
    destruct mds; try discriminate; exec;
      rewrite ?truthy_dataURL, ?dataURL_plain; simpl; [| done].
    by rewrite !lookup_insert_eq.
  - (* SetUrl *)
    cbn in Ht, Hp. apply bool_decide_eq_true in Ht. rewrite Ht in *.
    destruct (Js.truthy text) eqn:Hu; [| done].
    destruct mds; try discriminate; simpl; rewrite ?Hu, ?Hp; simpl;
      [| done].
    by rewrite !lookup_insert_eq.
  - (* Clear *)
    destruct mds; try discriminate; simpl;
      by rewrite ?lookup_delete_eq.
Qed.

(** ** Only non-empty strings are stored *)

Lemma touches_writes {V} k (w w' : World V) k' v :
  touches k w w' →
  (k', v) ∈ writes (log w') →
  (k', v) ∈ writes (log w) ∨ (k' = k ∧ v ≠ "").
Proof.
  intros [_ (l & -> & Hl) _]. rewrite writes_app, elem_of_app.
  intros [?|?]; [by left | right; by apply Hl].
Qed.

Lemma touches_accessible {V} k (w w' : World V) :
  touches k w w' → accessible (ls w') = accessible (ls w).
Proof. intros [Hm _ _]. unfold accessible. by rewrite Hm. Qed.

(** ** The scenarios of the specification, run *)

Example trim_examples :
  Js.trim "  a b  " = "a b" ∧ Js.trim "   " = "" ∧
  Js.trim "" = "" ∧ Js.trim "a.png" = "a.png".
Proof. by vm_compute. Qed.

Example key_examples :
  React.key "/work" = "profile-image:/work" ∧
  React.key "" = "profile-image:/" ∧
  Script.LS_KEY (Some "work") = "ant-portfolio-photo:work" ∧
  Script.LS_KEY (Some "") = "ant-portfolio-photo:home" ∧
  Script.LS_KEY None = "ant-portfolio-photo:home".
Proof. by vm_compute. Qed.

Example dataURL_png : dataURL png = "data:image/png;base64,iVBORw0KGgo=".
Proof. reflexivity. Qed.

(** Fresh storage, page "education": Load shows nothing, SetFromUrl shows
    the URL, and a reload shows it again. *)
Example scenario_set_url :
  React.visible (React.run "/education" [Load] fresh_react) = "" ∧
  React.visible
    (React.run "/education"
       [Load; SetUrl "https://example.com/photo.jpg"] fresh_react)
    = "https://example.com/photo.jpg" ∧
  React.visible
    (React.run "/education"
       [Load; SetUrl "https://example.com/photo.jpg"; Load] fresh_react)
    = "https://example.com/photo.jpg" ∧
  Script.visible (Script.run (Some "education") [Load] fresh_script) = "" ∧
  Script.visible
    (Script.run (Some "education")
       [Load; SetUrl "https://example.com/photo.jpg"] fresh_script)
    = "https://example.com/photo.jpg" ∧
  Script.visible
    (Script.run (Some "education")
       [Load; SetUrl "https://example.com/photo.jpg"; Load] fresh_script)
    = "https://example.com/photo.jpg".
Proof. by vm_compute. Qed.

(** Page "home", a file is selected and read: the page shows its data
    URL and the entry is that same string. *)
Example scenario_file :
  React.run "/" [Load; SelectFile (Some [png]); FileLoaded 0] fresh_react =
    mkWorld "data:image/png;base64,iVBORw0KGgo="
      {| items := {[ "profile-image:/" := "data:image/png;base64,iVBORw0KGgo=" ]};
         mode := Open |}
      []
      [GetItem "profile-image:/"; ReadAsDataURL png;
       Paint "data:image/png;base64,iVBORw0KGgo=";
       SetItem "profile-image:/" "data:image/png;base64,iVBORw0KGgo="].
Proof. reflexivity. Qed.

(** Page "work" has an entry from an earlier session: loading the page
    shows it with no action of the user. *)
Example scenario_stored :
  Script.visible
    (Script.run (Some "work") [Load]
       (mkWorld (Some Script.Unset)
          {| items := {[ "ant-portfolio-photo:work" := "w.jpg" ]};
             mode := Open |} [] [])) = "w.jpg" ∧
  React.visible
    (React.run "/work" [Load]
       (mkWorld React.initial
          {| items := {[ "profile-image:/work" := "w.jpg" ]}; mode := Open |}
          [] [])) = "w.jpg".
Proof. by vm_compute. Qed.

(** * The claims *)

(** C1, as amended. For a URL string [u] that is not empty or white space
    only, on a storage that takes the write, SetFromUrl(u) followed by Load
    on the same page shows and stores [u] itself in the React program. The
    script (on a page with a preview element) stores [u] without its
    leading and trailing white space, and shows that text when it is
    plain, that is, when it has no double quote, backslash, line break or
    NUL and so stands unchanged between the quotes of [url("...")]. *)
Theorem C1_set_url_then_load (pathname : string) (attr : option string)
    (u : string) (wr : World string) (ws : World Script.View) :
  writable (ls wr) = true →
  writable (ls ws) = true →
  has_preview ws = true →
  Js.truthy (Js.trim u) = true →
  (React.visible (React.run pathname [SetUrl u; Load] wr) = u ∧
   stored (React.key pathname) (React.run pathname [SetUrl u; Load] wr)
     = Some u) ∧
  (stored (Script.LS_KEY attr) (Script.run attr [SetUrl u; Load] ws)
     = Some (Js.trim u) ∧
   (css_plain (Js.trim u) = true →
    Script.visible (Script.run attr [SetUrl u; Load] ws) = Js.trim u)).
Proof.
  intros Hr Hs Hv Hu. pose proof (trim_truthy u Hu) as Hu'. split.
  - assert (Ha : accessible (ls wr) = true) by by apply writable_accessible.
    rewrite react_run_two by done.
    rewrite (react_set_url _ _ _ Hr Hu').
    erewrite react_load_found; [| done | apply lookup_insert_eq | done].
    by split; [| apply lookup_insert_eq].
  - assert (Ha : accessible (ls ws) = true) by by apply writable_accessible.
    cbn [Script.run].
    destruct (css_plain (Js.trim u)) eqn:Hp.
    + rewrite (script_set_url _ _ _ Hs Hv Hu Hp).
      erewrite script_load_found;
        [| done | done | apply lookup_insert_eq | done | done].
      by split; [apply lookup_insert_eq |].
    + rewrite (script_set_url_garbled _ _ _ Hs Hv Hu Hp).
      erewrite script_load_garbled;
        [| done | done | apply lookup_insert_eq | done | done].
      by split; [apply lookup_insert_eq |].
Qed.

Lemma C1_set_url_then_load_witness :
  (React.visible (React.run "/work" [SetUrl " a.png "; Load] fresh_react)
     = " a.png " ∧
   stored (React.key "/work")
     (React.run "/work" [SetUrl " a.png "; Load] fresh_react)
     = Some " a.png ") ∧
  (stored (Script.LS_KEY (Some "work"))
     (Script.run (Some "work") [SetUrl " a.png "; Load] fresh_script)
     = Some "a.png" ∧
   Script.visible (Script.run (Some "work") [SetUrl " a.png "; Load] fresh_script)
     = "a.png").
Proof.
  destruct (C1_set_url_then_load "/work" (Some "work") " a.png "
              fresh_react fresh_script eq_refl eq_refl eq_refl eq_refl)
    as [Hreact [Hstored Hshown]].
  split; [exact Hreact |]. split; [exact Hstored |].
  apply Hshown. reflexivity.
Defined.

(** C1 fails as stated: the script trims the text of the URL field, so
    what Load reads back after SetFromUrl(" a ") is "a". *)
Lemma C1_counterexample :
  Script.visible (Script.run None [SetUrl " a "; Load] fresh_script) = "a" ∧
  stored (Script.LS_KEY None) (Script.run None [SetUrl " a "; Load] fresh_script)
    = Some "a" ∧
  Script.visible (Script.run None [SetUrl " a "; Load] fresh_script) ≠ " a ".
Proof. by vm_compute. Qed.

(** C2, as amended. Page identifiers are told apart after the default for
    an empty or missing one has been filled in (["/"] for a pathname,
    ["home"] for the [data-page] attribute). Two pages that differ in this
    sense have different storage keys, and no event on the first changes
    what the second shows or the entry stored for it. *)
Theorem C2_pages_are_isolated (p1 p2 : string) (a1 a2 : option string)
    (e : Event) (sr : Site string string)
    (ss : Site (option string) Script.View) :
  Js.or_else p1 "/" ≠ Js.or_else p2 "/" →
  Script.page a1 ≠ Script.page a2 →
  (React.key p1 ≠ React.key p2 ∧
   tabs (on_page React.step p1 e sr) !! p2 = tabs sr !! p2 ∧
   items (disk (on_page React.step p1 e sr)) !! React.key p2
     = items (disk sr) !! React.key p2) ∧
  (Script.LS_KEY a1 ≠ Script.LS_KEY a2 ∧
   tabs (on_page Script.step a1 e ss) !! a2 = tabs ss !! a2 ∧
   items (disk (on_page Script.step a1 e ss)) !! Script.LS_KEY a2
     = items (disk ss) !! Script.LS_KEY a2).
Proof.
  intros Hp Ha.
  assert (Hkr : React.key p1 ≠ React.key p2) by by rewrite react_key_inj.
  assert (Hks : Script.LS_KEY a1 ≠ Script.LS_KEY a2)
    by by rewrite script_key_inj.
  split; (split; [done |]); split.
  - apply on_page_tabs_other. by intros ->.
  - apply (on_page_disk_other React.step React.key); [| done].
    intros w. apply react_step_touches.
  - apply on_page_tabs_other. by intros ->.
  - apply (on_page_disk_other Script.step Script.LS_KEY); [| done].
    intros w. apply script_step_touches.
Qed.

Lemma C2_pages_are_isolated_witness :
  (React.key "/work" ≠ React.key "/education" ∧
   tabs (on_page React.step "/work" (SetUrl "a.png")
           (two_react_pages "/work" "/education")) !! "/education"
     = tabs (two_react_pages "/work" "/education") !! "/education" ∧
   items (disk (on_page React.step "/work" (SetUrl "a.png")
                  (two_react_pages "/work" "/education")))
       !! React.key "/education"
     = items (disk (two_react_pages "/work" "/education"))
         !! React.key "/education") ∧
  (Script.LS_KEY (Some "work") ≠ Script.LS_KEY None ∧
   tabs (on_page Script.step (Some "work") (SetUrl "a.png")
           (two_script_pages (Some "work") None)) !! None
     = tabs (two_script_pages (Some "work") None) !! None ∧
   items (disk (on_page Script.step (Some "work") (SetUrl "a.png")
                  (two_script_pages (Some "work") None)))
       !! Script.LS_KEY None
     = items (disk (two_script_pages (Some "work") None))
         !! Script.LS_KEY None).
Proof.
  apply (C2_pages_are_isolated "/work" "/education" (Some "work") None
           (SetUrl "a.png") (two_react_pages "/work" "/education")
           (two_script_pages (Some "work") None)); by vm_compute.
Defined.

(** C2 fails as stated. A page without a [data-page] attribute and a page
    with [data-page="home"] are different pages with one storage key, and
    so are the pathnames [""] and ["/"]: setting a URL on the first
    changes the entry of the second. *)
Lemma C2_counterexample :
  (None ≠ Some "home" ∧
   Script.LS_KEY None = Script.LS_KEY (Some "home") ∧
   items (disk (two_script_pages None (Some "home")))
     !! Script.LS_KEY (Some "home") = None ∧
   items (disk (on_page Script.step None (SetUrl "a.png")
                  (two_script_pages None (Some "home"))))
     !! Script.LS_KEY (Some "home") = Some "a.png") ∧
  ("" ≠ "/" ∧
   React.key "" = React.key "/" ∧
   items (disk (two_react_pages "" "/")) !! React.key "/" = None ∧
   items (disk (on_page React.step "" (SetUrl "a.png")
                  (two_react_pages "" "/")))
     !! React.key "/" = Some "a.png").
Proof. by vm_compute. Qed.

(** C3, on the code. The script ignores a URL field that is empty once
    trimmed. The Set button of [ImageUploader] only tests the text for
    being non-empty: white space alone is shown and written like any other
    text. *)
Theorem C3_white_space_url (pathname : string) (attr : option string)
    (u : string) (wr : World string) (ws : World Script.View) :
  writable (ls wr) = true →
  Js.truthy u = true →
  Js.trim u = "" →
  Script.step attr (SetUrl u) ws = ws ∧
  Script.step attr (SetUrl "") ws = ws ∧
  React.step pathname (SetUrl "") wr = wr ∧
  React.step pathname (SetUrl u) wr =
    mkWorld u {| items := <[React.key pathname := u]> (items (ls wr));
                 mode := mode (ls wr) |}
            (readers wr)
            (log wr ++ [Paint u; SetItem (React.key pathname) u]) ∧
  React.visible (React.step pathname (SetUrl u) wr) = u ∧
  stored (React.key pathname) (React.step pathname (SetUrl u) wr) = Some u.
Proof.
  intros Hm Hu Ht.
  rewrite (react_set_url _ _ _ Hm Hu).
  split_and!; try done.
  - by apply script_set_url_blank.
  - unfold stored. cbn. apply lookup_insert_eq.
Qed.

Lemma C3_white_space_url_witness :
  Script.step (Some "home") (SetUrl "   ") fresh_script = fresh_script ∧
  Script.step (Some "home") (SetUrl "") fresh_script = fresh_script ∧
  React.step "/" (SetUrl "") fresh_react = fresh_react ∧
  React.step "/" (SetUrl "   ") fresh_react =
    mkWorld "   " {| items := <[React.key "/" := "   "]> ∅; mode := Open |}
            [] [Paint "   "; SetItem (React.key "/") "   "] ∧
  React.visible (React.step "/" (SetUrl "   ") fresh_react) = "   " ∧
  stored (React.key "/") (React.step "/" (SetUrl "   ") fresh_react)
    = Some "   ".
Proof.
  apply (C3_white_space_url "/" (Some "home") "   " fresh_react fresh_script);
    reflexivity.
Defined.

(** C4. On a storage that can be reached, Clear leaves nothing visible and
    no entry under the page's key, whatever was there before; a Load after
    it finds nothing and shows nothing; and a second Clear changes neither
    what is shown nor what is stored. *)
Theorem C4_clear (pathname : string) (attr : option string)
    (wr : World string) (ws : World Script.View) :
  accessible (ls wr) = true →
  accessible (ls ws) = true →
  (React.visible (React.step pathname Clear wr) = "" ∧
   stored (React.key pathname) (React.step pathname Clear wr) = None ∧
   React.visible (React.run pathname [Clear; Load] wr) = "" ∧
   stored (React.key pathname) (React.run pathname [Clear; Load] wr) = None ∧
   same_state (React.run pathname [Clear; Clear] wr)
              (React.step pathname Clear wr)) ∧
  (Script.visible (Script.step attr Clear ws) = "" ∧
   stored (Script.LS_KEY attr) (Script.step attr Clear ws) = None ∧
   Script.visible (Script.run attr [Clear; Load] ws) = "" ∧
   stored (Script.LS_KEY attr) (Script.run attr [Clear; Load] ws) = None ∧
   same_state (Script.run attr [Clear; Clear] ws)
              (Script.step attr Clear ws)).
Proof.
  intros Hr Hs. split.
  - rewrite !react_run_two by done.
    rewrite (react_clear _ _ Hr).
    rewrite react_load_absent;
      [| done | left; unfold stored; cbn; apply lookup_delete_eq].
    rewrite react_clear by done.
    unfold stored, same_state, React.visible. cbn.
    rewrite delete_delete_eq, !lookup_delete_eq. done.
  - cbn [Script.run].
    rewrite (script_clear _ _ Hs).
    rewrite script_load_absent;
      [| done | left; unfold stored; cbn; apply lookup_delete_eq].
    rewrite script_clear by done.
    unfold stored, same_state, Script.visible. cbn.
    rewrite delete_delete_eq, !lookup_delete_eq.
    by destruct (view ws).
Qed.

Lemma C4_clear_witness :
  (React.visible (React.step "/" Clear
                    (React.step "/" (SetUrl "a.png") fresh_react)) = "" ∧
   stored (React.key "/")
     (React.step "/" Clear (React.step "/" (SetUrl "a.png") fresh_react))
     = None ∧
   React.visible (React.run "/" [Clear; Load]
                    (React.step "/" (SetUrl "a.png") fresh_react)) = "" ∧
   stored (React.key "/")
     (React.run "/" [Clear; Load]
        (React.step "/" (SetUrl "a.png") fresh_react)) = None ∧
   same_state
     (React.run "/" [Clear; Clear]
        (React.step "/" (SetUrl "a.png") fresh_react))
     (React.step "/" Clear (React.step "/" (SetUrl "a.png") fresh_react))) ∧
  (Script.visible (Script.step None Clear
                     (Script.step None (SetUrl "a.png") fresh_script)) = "" ∧
   stored (Script.LS_KEY None)
     (Script.step None Clear (Script.step None (SetUrl "a.png") fresh_script))
     = None ∧
   Script.visible (Script.run None [Clear; Load]
                     (Script.step None (SetUrl "a.png") fresh_script)) = "" ∧
   stored (Script.LS_KEY None)
     (Script.run None [Clear; Load]
        (Script.step None (SetUrl "a.png") fresh_script)) = None ∧
   same_state
     (Script.run None [Clear; Clear]
        (Script.step None (SetUrl "a.png") fresh_script))
     (Script.step None Clear
        (Script.step None (SetUrl "a.png") fresh_script))).
Proof.
  apply (C4_clear "/" None (React.step "/" (SetUrl "a.png") fresh_react)
           (Script.step None (SetUrl "a.png") fresh_script)); reflexivity.
Defined.

(** C5. Selecting a file only starts the read. When the read of a readable
    file completes, on a storage that takes the write, the page shows the
    file's data URL and stores that same string under the page's key,
    whatever was stored before; the completion paints once and writes
    once. *)
Theorem C5_file_read_completes (pathname : string) (attr : option string)
    (files : option (list File)) (f : File)
    (wr : World string) (ws : World Script.View) :
  first_file files = Some f →
  readable f = true →
  writable (ls wr) = true →
  writable (ls ws) = true →
  has_preview ws = true →
  let wr1 := React.step pathname (SelectFile files) wr in
  let wr2 := React.step pathname (FileLoaded (length (readers wr))) wr1 in
  let ws1 := Script.step attr (SelectFile files) ws in
  let ws2 := Script.step attr (FileLoaded (length (readers ws))) ws1 in
  (view wr1 = view wr ∧ ls wr1 = ls wr ∧
   log wr1 = log wr ++ [ReadAsDataURL f] ∧
   React.visible wr2 = dataURL f ∧
   stored (React.key pathname) wr2 = Some (React.visible wr2) ∧
   log wr2 = log wr1 ++ [Paint (dataURL f);
                         SetItem (React.key pathname) (dataURL f)]) ∧
  (view ws1 = view ws ∧ ls ws1 = ls ws ∧
   log ws1 = log ws ++ [ReadAsDataURL f] ∧
   Script.visible ws2 = dataURL f ∧
   stored (Script.LS_KEY attr) ws2 = Some (Script.visible ws2) ∧
   log ws2 = log ws1 ++ [Paint (dataURL f);
                         SetItem (Script.LS_KEY attr) (dataURL f)]).
Proof.
  intros Hfiles Hf Hr Hs Hv. cbn zeta. split.
  - rewrite (react_select _ _ _ _ Hfiles).
    erewrite react_file_loaded;
      [| done | by apply list_lookup_middle | done].
    unfold stored, React.visible. cbn.
    by rewrite lookup_insert_eq.
  - rewrite (script_select _ _ _ _ Hfiles).
    erewrite script_file_loaded;
      [| done | done | by apply list_lookup_middle | done].
    unfold stored, Script.visible. cbn.
    by rewrite lookup_insert_eq.
Qed.

Lemma C5_file_read_completes_witness :
  let wr1 := React.step "/" (SelectFile (Some [png])) fresh_react in
  let wr2 := React.step "/" (FileLoaded 0) wr1 in
  let ws1 := Script.step (Some "home") (SelectFile (Some [png])) fresh_script in
  let ws2 := Script.step (Some "home") (FileLoaded 0) ws1 in
  (view wr1 = view fresh_react ∧ ls wr1 = ls fresh_react ∧
   log wr1 = log fresh_react ++ [ReadAsDataURL png] ∧
   React.visible wr2 = dataURL png ∧
   stored (React.key "/") wr2 = Some (React.visible wr2) ∧
   log wr2 = log wr1 ++ [Paint (dataURL png);
                         SetItem (React.key "/") (dataURL png)]) ∧
  (view ws1 = view fresh_script ∧ ls ws1 = ls fresh_script ∧
   log ws1 = log fresh_script ++ [ReadAsDataURL png] ∧
   Script.visible ws2 = dataURL png ∧
   stored (Script.LS_KEY (Some "home")) ws2 = Some (Script.visible ws2) ∧
   log ws2 = log ws1 ++ [Paint (dataURL png);
                         SetItem (Script.LS_KEY (Some "home")) (dataURL png)]).
Proof.
  apply (C5_file_read_completes "/" (Some "home") (Some [png]) png
           fresh_react fresh_script); reflexivity.
Defined.

(** C6, on the code. With a storage that refuses every access, the script's
    load block swallows the exception of [getItem] and the page shows
    nothing, as if no entry were stored. The effect of [usePageImage] has
    no [try]: the exception leaves it, is reported as uncaught, and no
    later event is handled. *)
Theorem C6_load_on_blocked_storage (pathname : string) (attr : option string)
    (es : list Event) (wr : World string) (ws : World Script.View) :
  accessible (ls wr) = false →
  accessible (ls ws) = false →
  ((Script.handle attr Load ws).1 = Ok () ∧
   Script.visible (Script.step attr Load ws) = "" ∧
   log (Script.step attr Load ws)
     = log ws ++ [GetItem (Script.LS_KEY attr)]) ∧
  ((React.handle pathname Load wr).1 = Throw SecurityError ∧
   log (React.step pathname Load wr)
     = log wr ++ [GetItem (React.key pathname); Uncaught SecurityError] ∧
   React.run pathname (Load :: es) wr = React.step pathname Load wr).
Proof.
  intros Hr Hs. split.
  - open_world ws. destruct md; try discriminate.
    exec. split_and!; [done | by destruct v | by tidy].
  - open_world wr. destruct md; try discriminate.
    cbn [React.run]. exec. split_and!; [done | by tidy | done].
Qed.

Lemma C6_load_on_blocked_storage_witness :
  ((Script.handle (Some "home") Load
      (mkWorld (Some Script.Unset) blocked_storage [] [])).1 = Ok () ∧
   Script.visible (Script.step (Some "home") Load
      (mkWorld (Some Script.Unset) blocked_storage [] [])) = "" ∧
   log (Script.step (Some "home") Load
      (mkWorld (Some Script.Unset) blocked_storage [] []))
     = [] ++ [GetItem (Script.LS_KEY (Some "home"))]) ∧
  ((React.handle "/" Load (mkWorld React.initial blocked_storage [] [])).1
     = Throw SecurityError ∧
   log (React.step "/" Load (mkWorld React.initial blocked_storage [] []))
     = [] ++ [GetItem (React.key "/"); Uncaught SecurityError] ∧
   React.run "/" [Load; SetUrl "a.png"]
     (mkWorld React.initial blocked_storage [] [])
     = React.step "/" Load (mkWorld React.initial blocked_storage [] [])).
Proof.
  apply (C6_load_on_blocked_storage "/" (Some "home") [SetUrl "a.png"]
           (mkWorld React.initial blocked_storage [] [])
           (mkWorld (Some Script.Unset) blocked_storage [] [])); reflexivity.
Defined.

(** C8. A file is selected and Clear is pressed before the read completes:
    right after Clear nothing is shown and no entry is stored; when the
    read then completes, its callback shows the data URL and stores it, so
    the later completion wins over the earlier Clear. *)
Theorem C8_clear_then_completion (pathname : string) (attr : option string)
    (files : option (list File)) (f : File)
    (wr : World string) (ws : World Script.View) :
  first_file files = Some f →
  readable f = true →
  writable (ls wr) = true →
  writable (ls ws) = true →
  has_preview ws = true →
  let wr1 := React.run pathname [SelectFile files; Clear] wr in
  let wr2 := React.step pathname (FileLoaded (length (readers wr))) wr1 in
  let ws1 := Script.run attr [SelectFile files; Clear] ws in
  let ws2 := Script.step attr (FileLoaded (length (readers ws))) ws1 in
  (React.visible wr1 = "" ∧ stored (React.key pathname) wr1 = None ∧
   React.visible wr2 = dataURL f ∧
   stored (React.key pathname) wr2 = Some (dataURL f)) ∧
  (Script.visible ws1 = "" ∧ stored (Script.LS_KEY attr) ws1 = None ∧
   Script.visible ws2 = dataURL f ∧
   stored (Script.LS_KEY attr) ws2 = Some (dataURL f)).
Proof.
  intros Hfiles Hf Hr Hs Hv. cbn zeta. split.
  - pose proof (writable_accessible _ Hr) as Ha.
    rewrite react_run_two by done.
    rewrite (react_select _ _ _ _ Hfiles).
    rewrite react_clear by done.
    erewrite react_file_loaded;
      [| done | by apply list_lookup_middle | done].
    unfold stored, React.visible. cbn.
    by rewrite lookup_delete_eq, lookup_insert_eq.
  - pose proof (writable_accessible _ Hs) as Ha. cbn [Script.run].
    rewrite (script_select _ _ _ _ Hfiles).
    rewrite script_clear by done.
    erewrite script_file_loaded;
      [| done | | by apply list_lookup_middle | done].
    + unfold stored, Script.visible. cbn.
      rewrite lookup_delete_eq, lookup_insert_eq.
      unfold has_preview in Hv. by destruct (view ws).
    + unfold has_preview in *. cbn. by destruct (view ws).
Qed.

Lemma C8_clear_then_completion_witness :
  let wr1 := React.run "/" [SelectFile (Some [png]); Clear] fresh_react in
  let wr2 := React.step "/" (FileLoaded 0) wr1 in
  let ws1 := Script.run None [SelectFile (Some [png]); Clear] fresh_script in
  let ws2 := Script.step None (FileLoaded 0) ws1 in
  (React.visible wr1 = "" ∧ stored (React.key "/") wr1 = None ∧
   React.visible wr2 = dataURL png ∧
   stored (React.key "/") wr2 = Some (dataURL png)) ∧
  (Script.visible ws1 = "" ∧ stored (Script.LS_KEY None) ws1 = None ∧
   Script.visible ws2 = dataURL png ∧
   stored (Script.LS_KEY None) ws2 = Some (dataURL png)).
Proof.
  apply (C8_clear_then_completion "/" None (Some [png]) png
           fresh_react fresh_script); reflexivity.
Defined.

(** C9. A change of the file input with no file in it (no file list, or an
    empty one) changes nothing at all: no read is started, and what is
    shown, what is stored, the reads in flight and the calls made are what
    they were. *)
Theorem C9_no_file_selected (pathname : string) (attr : option string)
    (files : option (list File)) (wr : World string) (ws : World Script.View) :
  files = None ∨ files = Some [] →
  React.step pathname (SelectFile files) wr = wr ∧
  Script.step attr (SelectFile files) ws = ws.
Proof.
  intros Hfiles.
  assert (Hnone : first_file files = None) by by destruct Hfiles as [-> | ->].
  split.
  - by apply react_select_none.
  - by apply script_select_none.
Qed.

Lemma C9_no_file_selected_witness :
  React.step "/projects" (SelectFile (Some []))
    (React.step "/projects" (SetUrl "a.png") fresh_react)
    = React.step "/projects" (SetUrl "a.png") fresh_react ∧
  Script.step (Some "projects") (SelectFile (Some []))
    (Script.step (Some "projects") (SetUrl "a.png") fresh_script)
    = Script.step (Some "projects") (SetUrl "a.png") fresh_script.
Proof.
  apply (C9_no_file_selected "/projects" (Some "projects") (Some [])
           (React.step "/projects" (SetUrl "a.png") fresh_react)
           (Script.step (Some "projects") (SetUrl "a.png") fresh_script)).
  right. reflexivity.
Defined.

(** C7, as amended. The two programs agree step by step on what they show,
    on the entry each keeps under its own key and on the reads in flight,
    for every sequence of events in which
    - the text given to SetFromUrl has no leading or trailing white space
      and is plain (no double quote, backslash, line break or NUL: the script
      puts it between the quotes of [url("...")] as it is, the React page
      hands it to [<img src>]),
    - no Load comes while a file read is in flight (the script's Load is a
      page load, which ends the reads; a React page entered by navigation
      leaves the readers of the instance before running),
    on a storage that can be read, with a plain entry if any, and on a
    script page that has a preview element. *)
Theorem C7_programs_agree (pathname : string) (attr : option string)
    (es : list Event) (wr : World string) (ws : World Script.View) :
  forallb trimmed es = true →
  forallb plain_event es = true →
  loads_quiet (length (readers wr)) es = true →
  accessible (ls wr) = true →
  mode (ls wr) = mode (ls ws) →
  has_preview ws = true →
  plain_entry (stored (Script.LS_KEY attr) ws) = true →
  agree pathname attr wr ws →
  agree pathname attr (React.run pathname es wr) (Script.run attr es ws).
Proof.
  intros Ht Hp _. revert wr ws Ht Hp.
  induction es as [| e es IH]; intros wr ws Ht Hp Hacc Hmode Hv Hpe Hag.
  - done.
  - cbn in Ht, Hp. apply andb_true_iff in Ht as [He Hes].
    apply andb_true_iff in Hp as [Hpl Hpls].
    rewrite react_run_step by done. cbn [Script.run].
    apply IH.
    + done.
    + done.
    + by rewrite react_step_accessible.
    + rewrite (touches_mode _ _ _ (react_step_touches pathname e wr)).
      by rewrite (touches_mode _ _ _ (script_step_touches attr e ws)).
    + by rewrite script_step_has_preview.
    + by apply script_step_plain_entry.
    + by apply step_agree.
Qed.

Lemma C7_programs_agree_witness :
  agree "/work" (Some "work")
    (React.run "/work"
       [Load; SetUrl "a.png"; SelectFile (Some [png]); Clear; FileLoaded 0;
        Load]
       fresh_react)
    (Script.run (Some "work")
       [Load; SetUrl "a.png"; SelectFile (Some [png]); Clear; FileLoaded 0;
        Load]
       fresh_script).
Proof.
  apply (C7_programs_agree "/work" (Some "work")
           [Load; SetUrl "a.png"; SelectFile (Some [png]); Clear;
            FileLoaded 0; Load]
           fresh_react fresh_script);
    [reflexivity | reflexivity | reflexivity | reflexivity | reflexivity
    | reflexivity | reflexivity | by vm_compute].
Defined.

(** C7 fails as stated: started alike and given the same text " a ", the
    React page shows and stores " a " and the script page shows and stores
    "a". *)
Lemma C7_counterexample :
  agree "/" (Some "home") fresh_react fresh_script ∧
  React.visible (React.run "/" [SetUrl " a "] fresh_react) = " a " ∧
  Script.visible (Script.run (Some "home") [SetUrl " a "] fresh_script) = "a" ∧
  stored (React.key "/") (React.run "/" [SetUrl " a "] fresh_react)
    = Some " a " ∧
  stored (Script.LS_KEY (Some "home"))
    (Script.run (Some "home") [SetUrl " a "] fresh_script) = Some "a" ∧
  ¬ agree "/" (Some "home")
      (React.run "/" [SetUrl " a "] fresh_react)
      (Script.run (Some "home") [SetUrl " a "] fresh_script).
Proof.
  split_and!; try by vm_compute.
  intros (Hvis & _). by vm_compute in Hvis.
Qed.

(** C10, on the code. Every [setItem] either program makes, over any
    sequence of events, is under the page's own key and with a non-empty
    string; started on a storage whose entry for the page is not the empty
    string, the entry never becomes the empty string. In the React page an
    entry that is present is shown by Load. In the script it is shown when
    it is plain. An entry with a double quote in it, which the script's
    own Set button writes, is stored and not shown: after Load the script
    page shows nothing, where the React page shows the URL. *)
Theorem C10_stored_values_are_nonempty (pathname : string)
    (attr : option string) (es : list Event)
    (wr : World string) (ws : World Script.View) :
  (∀ k v, (k, v) ∈ writes (log (React.run pathname es wr)) →
          (k, v) ∈ writes (log wr) ∨ (k = React.key pathname ∧ v ≠ "")) ∧
  (∀ k v, (k, v) ∈ writes (log (Script.run attr es ws)) →
          (k, v) ∈ writes (log ws) ∨ (k = Script.LS_KEY attr ∧ v ≠ "")) ∧
  (stored (React.key pathname) wr ≠ Some "" →
   accessible (ls wr) = true →
   stored (React.key pathname) (React.run pathname es wr) ≠ Some "" ∧
   (is_Some (stored (React.key pathname) (React.run pathname es wr)) →
    React.visible (React.step pathname Load (React.run pathname es wr))
      ≠ "")) ∧
  (stored (Script.LS_KEY attr) ws ≠ Some "" →
   accessible (ls ws) = true →
   has_preview ws = true →
   stored (Script.LS_KEY attr) (Script.run attr es ws) ≠ Some "" ∧
   (∀ c, stored (Script.LS_KEY attr) (Script.run attr es ws) = Some c →
         css_plain c = true →
         Script.visible (Script.step attr Load (Script.run attr es ws)) = c ∧
         c ≠ "")) ∧
  (stored (Script.LS_KEY attr)
     (Script.run attr [SetUrl quoted_url] fresh_script) = Some quoted_url ∧
   Script.visible
     (Script.step attr Load (Script.run attr [SetUrl quoted_url] fresh_script))
     = "" ∧
   React.visible
     (React.step pathname Load
        (React.run pathname [SetUrl quoted_url] fresh_react))
     = quoted_url).
Proof.
  pose proof (react_run_touches pathname es wr) as Hr.
  pose proof (script_run_touches attr es ws) as Hs.
  split_and!.
  - intros k v. by apply touches_writes.
  - intros k v. by apply touches_writes.
  - intros Hwf Hacc.
    pose proof (touches_nonempty _ _ _ Hr Hwf) as Hwf'.
    split; [done |]. intros [c Hc].
    assert (Ht : Js.truthy c = true)
      by (apply truthy_true; intros ->; by rewrite Hc in Hwf').
    erewrite react_load_found; [| | done | done].
    + cbn. by apply truthy_true.
    + by rewrite (touches_accessible _ _ _ Hr).
  - intros Hwf Hacc Hv.
    pose proof (touches_nonempty _ _ _ Hs Hwf) as Hwf'.
    split; [done |]. intros c Hc Hp.
    assert (Ht : Js.truthy c = true)
      by (apply truthy_true; intros ->; by rewrite Hc in Hwf').
    split; [| by apply truthy_true].
    erewrite script_load_found; [done | | | done | done | done].
    + by rewrite (touches_accessible _ _ _ Hs).
    + by rewrite script_run_has_preview.
  - cbn [Script.run].
    rewrite (script_set_url_garbled attr quoted_url fresh_script)
      by reflexivity.
    unfold stored. cbn. apply lookup_insert_eq.
  - cbn [Script.run].
    rewrite (script_set_url_garbled attr quoted_url fresh_script)
      by reflexivity.
    erewrite script_load_garbled;
      [done | done | done | apply lookup_insert_eq | done | done].
  - rewrite react_run_step by done. cbn [React.run].
    rewrite (react_set_url pathname quoted_url fresh_react) by reflexivity.
    erewrite react_load_found; [done | done | apply lookup_insert_eq | done].
Qed.

Lemma C10_stored_values_are_nonempty_witness :
  (stored (React.key "/") (React.run "/" [SetUrl "a.png"; Clear; SetUrl " "]
                             fresh_react) ≠ Some "" ∧
   (is_Some (stored (React.key "/")
               (React.run "/" [SetUrl "a.png"; Clear; SetUrl " "]
                  fresh_react)) →
    React.visible
      (React.step "/" Load
         (React.run "/" [SetUrl "a.png"; Clear; SetUrl " "] fresh_react))
      ≠ "")) ∧
  (stored (Script.LS_KEY None)
     (Script.run None [SetUrl ""; SetUrl "a.png"] fresh_script) ≠ Some "" ∧
   (∀ c, stored (Script.LS_KEY None)
           (Script.run None [SetUrl ""; SetUrl "a.png"] fresh_script) = Some c →
         css_plain c = true →
         Script.visible
           (Script.step None Load
              (Script.run None [SetUrl ""; SetUrl "a.png"] fresh_script)) = c ∧
         c ≠ "")).
Proof.
  split.
  - apply (C10_stored_values_are_nonempty "/" None
             [SetUrl "a.png"; Clear; SetUrl " "] fresh_react fresh_script);
      by vm_compute.
  - apply (C10_stored_values_are_nonempty "/" None
             [SetUrl ""; SetUrl "a.png"] fresh_react fresh_script);
      by vm_compute.
Defined.

(** * Further properties *)

(** ** The active navigation link *)

Lemma split_slash_not_nil s : Nav.split_slash s ≠ [].
Proof.
  destruct s as [| c rest]; cbn; [done |].
  destruct (Ascii.eqb c "/"); [done |].
  by destruct (Nav.split_slash rest).
Qed.

Lemma split_slash_pieces s piece :
  piece ∈ Nav.split_slash s → Nav.has_slash piece = false.
Proof.
  revert piece. induction s as [| c rest IH]; intros piece; cbn.
  - by intros ->%list_elem_of_singleton.
  - destruct (Ascii.eqb c "/") eqn:Hc.
    + intros [-> | Hin]%elem_of_cons; [done | by apply IH].
    + pose proof (split_slash_not_nil rest) as Hne.
      destruct (Nav.split_slash rest) as [| p ps]; [done |].
      intros [-> | Hin]%elem_of_cons.
      * cbn. rewrite Hc. apply IH. by left.
      * apply IH. by right.
Qed.

Lemma split_slash_plain s :
  Nav.has_slash s = false → Nav.split_slash s = [s].
Proof.
  induction s as [| c rest IH]; cbn; [done |].
  destruct (Ascii.eqb c "/"); [done |]. cbn. intros Hr. by rewrite IH.
Qed.

Lemma split_slash_app dir rest :
  Nav.split_slash (dir +:+ "/" +:+ rest)
    = Nav.split_slash dir ++ Nav.split_slash rest.
Proof.
  induction dir as [| c dir IH].
  - change ("" +:+ "/" +:+ rest) with (String "/" rest). done.
  - change (String c dir +:+ "/" +:+ rest)
      with (String c (dir +:+ "/" +:+ rest)). cbn.
    destruct (Ascii.eqb c "/"); [by rewrite IH |].
    rewrite IH. pose proof (split_slash_not_nil dir) as Hne.
    by destruct (Nav.split_slash dir).
Qed.

Lemma split_slash_last dir file :
  Nav.has_slash file = false →
  last (Nav.split_slash (dir +:+ "/" +:+ file)) = Some file.
Proof.
  intros Hf. rewrite split_slash_app, (split_slash_plain file Hf).
  apply last_snoc.
Qed.

Lemma path_cases pathname :
  Nav.path pathname = "index.html" ∨
  (Nav.path pathname ≠ "" ∧ Nav.path pathname ∈ Nav.split_slash pathname).
Proof.
  unfold Nav.path.
  destruct (last (Nav.split_slash pathname)) as [piece|] eqn:Hl; [| by left].
  cbn. unfold Js.or_else. destruct (Js.truthy piece) eqn:Ht; [| by left].
  right. split; [by apply truthy_true |].
  apply last_Some in Hl as [l' ->]. apply elem_of_app. right. by left.
Qed.

Lemma path_not_empty pathname : Nav.path pathname ≠ "".
Proof. by destruct (path_cases pathname) as [-> | [? _]]. Qed.

Lemma path_no_slash pathname : Nav.has_slash (Nav.path pathname) = false.
Proof.
  destruct (path_cases pathname) as [-> | [_ Hin]]; [done |].
  by eapply split_slash_pieces.
Qed.

Lemma matches_path pathname h :
  Nav.matches h (Nav.path pathname) = bool_decide (h = Some (Nav.path pathname)).
Proof.
  unfold Nav.matches.
  rewrite (bool_decide_eq_false_2 (Nav.path pathname = ""))
    by apply path_not_empty.
  by rewrite andb_false_r, orb_false_r.
Qed.

Lemma add_elem token classes c :
  c ∈ Nav.add token classes ↔ c = token ∨ c ∈ classes.
Proof.
  unfold Nav.add. case_bool_decide as Hin.
  - split; [by right | by intros [-> | ?]].
  - rewrite elem_of_app, list_elem_of_singleton. tauto.
Qed.

Lemma add_add token classes :
  Nav.add token (Nav.add token classes) = Nav.add token classes.
Proof.
  unfold Nav.add at 1. rewrite bool_decide_eq_true_2; [done |].
  apply add_elem. by left.
Qed.

Lemma mark_mark path a : Nav.mark path (Nav.mark path a) = Nav.mark path a.
Proof.
  unfold Nav.mark. destruct (Nav.matches (Nav.href a) path) eqn:Hm; cbn.
  - by rewrite Hm, add_add.
  - by rewrite Hm.
Qed.

(** X1. The name the navigation block compares links with is never empty
    and has no slash in it, whatever the address of the page. *)
Theorem X1_nav_path_is_a_file_name (pathname : string) :
  Nav.path pathname ≠ "" ∧ Nav.has_slash (Nav.path pathname) = false.
Proof. split; [apply path_not_empty | apply path_no_slash]. Qed.

(** X2. That name is what follows the last slash of the address, and
    [index.html] when nothing follows it (a directory address) or when the
    address is empty. *)
Theorem X2_nav_path_last_segment (dir file : string) :
  Nav.has_slash file = false →
  Nav.path (dir +:+ "/" +:+ file) = Js.or_else file "index.html" ∧
  Nav.path file = Js.or_else file "index.html".
Proof.
  intros Hf. unfold Nav.path.
  by rewrite split_slash_last, split_slash_plain.
Qed.

Lemma X2_nav_path_last_segment_witness :
  Nav.path ("/portfolio" +:+ "/" +:+ "work.html") = "work.html" ∧
  Nav.path "work.html" = "work.html".
Proof.
  apply (X2_nav_path_last_segment "/portfolio" "work.html"). reflexivity.
Defined.

(** X3. After the block has run, every link has the [href] it had and all
    the classes it had, and it is active exactly if it was active before
    or its [href] is, character for character, the page's file name. The
    second test of the source, for an empty name, never decides. *)
Theorem X3_nav_active_iff (pathname : string) (links : list Nav.Link) :
  Forall2 (λ a a',
             Nav.href a' = Nav.href a ∧
             Nav.classList a ⊆ Nav.classList a' ∧
             (Nav.active a' ↔
              Nav.active a ∨ Nav.href a = Some (Nav.path pathname)))
          links (Nav.highlight pathname links).
Proof.
  unfold Nav.highlight. apply Forall2_fmap_r, Forall_Forall2_diag.
  apply Forall_forall. intros a _.
  unfold compose, Nav.mark, Nav.active. rewrite matches_path.
  case_bool_decide as Hh; cbn.
  - split_and!; [done | |].
    + intros c Hc. apply add_elem. by right.
    + rewrite add_elem. split; [by right | tauto].
  - split_and!; [done | done | tauto].
Qed.

(** X4. A link without [href], or whose [href] has a slash in it (a
    path such as [./work.html] or an absolute address), is never marked. *)
Theorem X4_nav_link_with_slash_unmarked (pathname : string) (a : Nav.Link) :
  Nav.href a = None ∨ (∃ h, Nav.href a = Some h ∧ Nav.has_slash h = true) →
  Nav.mark (Nav.path pathname) a = a.
Proof.
  intros Ha. unfold Nav.mark. rewrite matches_path.
  rewrite bool_decide_eq_false_2; [done |].
  destruct Ha as [Hn | (h & Hh & Hs)]; rewrite ?Hn, ?Hh; [done |].
  intros [= ->]. by rewrite path_no_slash in Hs.
Qed.

Lemma X4_nav_link_with_slash_unmarked_witness :
  Nav.mark (Nav.path "/portfolio/work.html")
    (Nav.mkLink (Some "./work.html") ["nav__link"])
  = Nav.mkLink (Some "./work.html") ["nav__link"].
Proof.
  apply (X4_nav_link_with_slash_unmarked "/portfolio/work.html"
           (Nav.mkLink (Some "./work.html") ["nav__link"])).
  right. exists "./work.html". split; reflexivity.
Defined.

(** X5. Running the block a second time changes nothing. *)
Theorem X5_nav_highlight_idempotent (pathname : string)
    (links : list Nav.Link) :
  Nav.highlight pathname (Nav.highlight pathname links)
    = Nav.highlight pathname links.
Proof.
  unfold Nav.highlight. rewrite <- list_fmap_compose.
  apply list_fmap_ext. intros i a _. apply mark_mark.
Qed.

(** X21. When the links have different [href]s and none is active in the
    markup, the block marks at most one of them. *)
Theorem X21_nav_at_most_one_active (pathname : string)
    (links : list Nav.Link) (i j : nat) (a b : Nav.Link) :
  NoDup (Nav.href <$> links) →
  Forall (λ l, ¬ Nav.active l) links →
  Nav.highlight pathname links !! i = Some a →
  Nav.highlight pathname links !! j = Some b →
  Nav.active a → Nav.active b →
  i = j ∧ Nav.href a = Some (Nav.path pathname).
Proof.
  intros Hnd Hnone Hi Hj Ha Hb. unfold Nav.highlight in *.
  rewrite list_lookup_fmap in Hi, Hj.
  destruct (links !! i) as [a0|] eqn:Hi0; [| done].
  destruct (links !! j) as [b0|] eqn:Hj0; [| done].
  cbn in Hi, Hj. injection Hi as <-. injection Hj as <-.
  assert (Hmarked : ∀ l, l ∈ links → Nav.active (Nav.mark (Nav.path pathname) l) →
                         Nav.href l = Some (Nav.path pathname)).
  { intros l Hl. rewrite Forall_forall in Hnone. specialize (Hnone l Hl).
    unfold Nav.mark, Nav.active in *. rewrite matches_path.
    case_bool_decide as Hh; [done |]. intros ?. by destruct Hnone. }
  apply Hmarked in Ha; [| by eapply list_elem_of_lookup_2].
  apply Hmarked in Hb; [| by eapply list_elem_of_lookup_2].
  split; [| unfold Nav.mark; by destruct (Nav.matches _ _)].
  apply (NoDup_lookup _ i j (Some (Nav.path pathname)) Hnd);
    rewrite list_lookup_fmap, ?Hi0, ?Hj0; cbn; by f_equal.
Qed.

Lemma X21_nav_at_most_one_active_witness :
  1 = 1 ∧
  Nav.href (Nav.mkLink (Some "work.html") ["nav__link"; "active"])
    = Some (Nav.path "/portfolio/work.html").
Proof.
  apply (X21_nav_at_most_one_active "/portfolio/work.html"
           nav_links 1 1
           (Nav.mkLink (Some "work.html") ["nav__link"; "active"])
           (Nav.mkLink (Some "work.html") ["nav__link"; "active"])).
  - by apply (bool_decide_unpack _).
  - repeat constructor; unfold Nav.active; cbn;
      by intros ?%list_elem_of_singleton.
  - reflexivity.
  - reflexivity.
  - unfold Nav.active. cbn. repeat constructor.
  - unfold Nav.active. cbn. repeat constructor.
Defined.

(** ** The Home page: two instances of the hook *)

Ltac exec_home :=
  unfold HomePage.step, HomePage.handle, HomePage.activate,
    HomePage.in_hero, HomePage.in_uploader, HomePage.zoom,
    HomePage.hero_picture, HomePage.thumbnail in *;
  exec; simpl.

Ltac open_home w :=
  let h := fresh "h" in
  let u := fresh "u" in
  let it := fresh "it" in
  let md := fresh "md" in
  let rs := fresh "rs" in
  let lg := fresh "lg" in
  destruct w as [[h u] [it md] rs lg];
  unfold stored, accessible, writable in *;
  cbn [view ls readers log items mode HomePage.hero HomePage.uploader] in *;
  subst.

(** X8. On the Home page the instance of the hook that [ImageUploader]
    holds goes through every event as the hook alone does: same [src], same
    storage, same reads in flight. *)
Theorem X8_home_uploader_is_the_hook (p : string) (e : Event)
    (w : World HomePage.Srcs) :
  let wu := React.step p e
              (mkWorld (HomePage.uploader (view w)) (ls w) (readers w) (log w)) in
  HomePage.uploader (view (HomePage.step p e w)) = view wu ∧
  ls (HomePage.step p e w) = ls wu ∧
  readers (HomePage.step p e w) = readers wu.
Proof.
  destruct e as [| files | i | text |]; open_home w; exec_home.
  - destruct md; simpl; try done.
    all: destruct (it !! React.key p) as [c|] eqn:Hk; simpl;
      rewrite ?Hk; simpl.
    all: try (destruct (Js.truthy c) eqn:Ht; simpl; rewrite ?Hk, ?Ht; simpl).
    all: done.
  - destruct (first_file files); simpl; done.
  - destruct (rs !! i) as [f|]; simpl; [| done].
    destruct (readable f); simpl; [| done].
    destruct md; simpl; done.
  - destruct (Js.truthy text); simpl; [| done].
    destruct md; simpl; done.
  - destruct md; simpl; done.
Qed.

(** X7. Loading the Home page on a storage that can be read brings both
    instances to the stored entry (to nothing when there is none) and
    leaves the storage as it is. *)
Theorem X7_home_load (p : string) (w : World HomePage.Srcs) :
  accessible (ls w) = true →
  let shown := match stored (React.key p) w with
               | Some c => c
               | None => ""
               end in
  view (HomePage.step p Load w) = HomePage.mkSrcs shown shown ∧
  ls (HomePage.step p Load w) = ls w.
Proof.
  intros Hacc. open_home w. exec_home.
  destruct md; try discriminate; simpl.
  all: destruct (it !! React.key p) as [c|] eqn:Hk; simpl;
    rewrite ?Hk; simpl.
  all: try (destruct (Js.truthy c) eqn:Ht; simpl; rewrite ?Hk, ?Ht; simpl).
  all: try done.
  all: apply truthy_false in Ht; by subst.
Qed.

Lemma X7_home_load_witness :
  let w := HomePage.step "/" (SetUrl "a.png") fresh_home in
  let shown := match stored (React.key "/") w with
               | Some c => c
               | None => ""
               end in
  view (HomePage.step "/" Load w) = HomePage.mkSrcs shown shown ∧
  ls (HomePage.step "/" Load w) = ls w.
Proof.
  apply (X7_home_load "/" (HomePage.step "/" (SetUrl "a.png") fresh_home)).
  reflexivity.
Defined.

(** The Home page after a URL is set: the thumbnail shows it, the large
    picture still shows the placeholder; after a reload both show it. *)
Example home_scenario :
  let w := HomePage.step "/" (SetUrl "a.png") fresh_home in
  HomePage.thumbnail w = Some "a.png" ∧
  HomePage.hero_picture w = HomePage.Placeholder ∧
  HomePage.hero_picture (HomePage.step "/" Load w) = HomePage.Img "a.png" ∧
  HomePage.thumbnail (HomePage.step "/" Load w) = Some "a.png".
Proof. by vm_compute. Qed.

(** ** Errors that reach the browser *)

Ltac split_handler it rs :=
  repeat (first [ destruct (it !! _) as [?|]
                | destruct (first_file _) as [?|]
                | destruct (rs !! _) as [?|]
                | destruct (readable _)
                | destruct (Js.truthy _)
                | destruct (css_plain _) ];
          simpl).

Ltac errors_done :=
  unfold errors; rewrite ?omap_app; simpl; rewrite ?app_nil_r; reflexivity.

Lemma script_step_errors a e w :
  errors (log (Script.step a e w)) = errors (log w).
Proof.
  rewrite script_step_handle.
  destruct e; open_world w; destruct v as [bg|], md; exec; simpl;
    split_handler it rs; errors_done.
Qed.

Lemma react_step_errors p e w :
  writable (ls w) = true →
  errors (log (React.step p e w)) = errors (log w).
Proof.
  intros Hw.
  destruct e; open_world w; destruct md; try discriminate; exec; simpl;
    split_handler it rs; errors_done.
Qed.

Lemma react_step_writable p e w :
  writable (ls (React.step p e w)) = writable (ls w).
Proof.
  unfold writable. by rewrite (touches_mode _ _ _ (react_step_touches p e w)).
Qed.

(** X9. No event makes the script throw: every handler returns normally,
    and over any sequence of events no uncaught error is reported,
    whatever the storage does. *)
Theorem X9_script_never_throws (attr : option string) (es : list Event)
    (w : World Script.View) :
  errors (log (Script.run attr es w)) = errors (log w) ∧
  ∀ e, (Script.handle attr e w).1 = Ok ().
Proof.
  split; [| intros e; apply script_handle_ok].
  revert w. induction es as [| e es IH]; intros w; [done |].
  cbn [Script.run]. by rewrite IH, script_step_errors.
Qed.

(** X10. On a storage that takes writes the React page reports no uncaught
    error either, over any sequence of events. *)
Theorem X10_react_no_error_when_writable (pathname : string)
    (es : list Event) (w : World string) :
  writable (ls w) = true →
  errors (log (React.run pathname es w)) = errors (log w).
Proof.
  revert w. induction es as [| e es IH]; intros w Hw; [done |].
  rewrite react_run_step by by apply writable_accessible.
  rewrite IH by by rewrite react_step_writable.
  by apply react_step_errors.
Qed.

Lemma X10_react_no_error_when_writable_witness :
  errors (log (React.run "/work"
                 [Load; SetUrl "a.png"; SelectFile (Some [png]);
                  FileLoaded 0; Clear] fresh_react))
    = errors (log fresh_react).
Proof.
  apply (X10_react_no_error_when_writable "/work"
           [Load; SetUrl "a.png"; SelectFile (Some [png]); FileLoaded 0; Clear]
           fresh_react).
  reflexivity.
Defined.

(** ** When the storage refuses the write *)

(** X11. With a storage that is full, Set in the React page still shows the
    new URL, but nothing is stored and the exception of [setItem] is
    reported as uncaught; a reload then shows what was stored before, not
    the URL. *)
Theorem X11_react_set_url_storage_full (pathname u : string)
    (w : World string) :
  mode (ls w) = Full →
  Js.truthy u = true →
  React.step pathname (SetUrl u) w =
    mkWorld u (ls w) (readers w)
            (log w ++ [Paint u; SetItem (React.key pathname) u;
                       Uncaught QuotaExceededError]) ∧
  React.visible (React.run pathname [SetUrl u; Load] w)
    = React.visible (React.step pathname Load w).
Proof.
  intros Hm Hu.
  assert (Hstep : React.step pathname (SetUrl u) w =
    mkWorld u (ls w) (readers w)
            (log w ++ [Paint u; SetItem (React.key pathname) u;
                       Uncaught QuotaExceededError])).
  { open_world w. exec. rewrite Hu. simpl. by rewrite <- !app_assoc. }
  split; [done |].
  rewrite react_run_two by (unfold accessible; by rewrite Hm).
  rewrite Hstep. open_world w. exec. simpl.
  destruct (it !! React.key pathname) as [c|]; simpl; [| done].
  by destruct (Js.truthy c).
Qed.

Lemma X11_react_set_url_storage_full_witness :
  React.step "/work" (SetUrl "new.png") full_work =
    mkWorld "new.png" (ls full_work) (readers full_work)
            (log full_work ++ [Paint "new.png";
                               SetItem (React.key "/work") "new.png";
                               Uncaught QuotaExceededError]) ∧
  React.visible (React.run "/work" [SetUrl "new.png"; Load] full_work)
    = React.visible (React.step "/work" Load full_work).
Proof.
  apply (X11_react_set_url_storage_full "/work" "new.png" full_work);
    reflexivity.
Defined.

(** X12. The script in the same situation, with a URL that is plain once
    trimmed: the preview shows the trimmed URL, nothing is stored, and the
    exception is swallowed; a reload shows what was stored before. *)
Theorem X12_script_set_url_storage_full (attr : option string) (u : string)
    (w : World Script.View) :
  mode (ls w) = Full →
  has_preview w = true →
  Js.truthy (Js.trim u) = true →
  css_plain (Js.trim u) = true →
  Script.step attr (SetUrl u) w =
    mkWorld (Some (Script.BgUrl (Js.trim u))) (ls w) (readers w)
            (log w ++ [Paint (Js.trim u);
                       SetItem (Script.LS_KEY attr) (Js.trim u)]) ∧
  Script.visible (Script.run attr [SetUrl u; Load] w)
    = Script.visible (Script.step attr Load w).
Proof.
  intros Hm Hv Hu Hp.
  assert (Hstep : Script.step attr (SetUrl u) w =
    mkWorld (Some (Script.BgUrl (Js.trim u))) (ls w) (readers w)
            (log w ++ [Paint (Js.trim u);
                       SetItem (Script.LS_KEY attr) (Js.trim u)])).
  { open_world w. destruct v as [bg|]; [| done].
    exec. rewrite Hu. exec. rewrite ?Hu, ?Hp. simpl.
    by rewrite <- !app_assoc. }
  split; [done |]. cbn [Script.run]. rewrite Hstep.
  open_world w. destruct v as [bg|]; [| done]. exec. simpl.
  destruct (it !! Script.LS_KEY attr) as [c|]; simpl; [| done].
  destruct (Js.truthy c); simpl; [| done].
  by destruct (css_plain c).
Qed.

Lemma X12_script_set_url_storage_full_witness :
  Script.step (Some "work") (SetUrl " new.png") full_work_script =
    mkWorld (Some (Script.BgUrl "new.png")) (ls full_work_script)
            (readers full_work_script)
            (log full_work_script ++
               [Paint "new.png";
                SetItem (Script.LS_KEY (Some "work")) "new.png"]) ∧
  Script.visible
    (Script.run (Some "work") [SetUrl " new.png"; Load] full_work_script)
    = Script.visible (Script.step (Some "work") Load full_work_script).
Proof.
  apply (X12_script_set_url_storage_full (Some "work") " new.png"
           full_work_script); reflexivity.
Defined.

(** ** The two programs on one origin *)

Lemma keys_apart p a : React.key p ≠ Script.LS_KEY a.
Proof. unfold React.key, Script.LS_KEY. discriminate. Qed.

(** X13. The keys of the two programs never meet, so on one origin neither
    program reads, writes or removes an entry of the other: over any
    sequence of events the React page leaves every entry of the script as
    it is, and the script every entry of the React page. *)
Theorem X13_programs_keep_apart (p q : string) (a b : option string)
    (es : list Event) (wr : World string) (ws : World Script.View) :
  React.key p ≠ Script.LS_KEY a ∧
  stored (Script.LS_KEY a) (React.run q es wr) = stored (Script.LS_KEY a) wr ∧
  stored (React.key p) (Script.run b es ws) = stored (React.key p) ws.
Proof.
  split_and!.
  - apply keys_apart.
  - eapply touches_other; [apply react_run_touches |].
    intros Heq. by apply (keys_apart q a).
  - eapply touches_other; [apply script_run_touches |].
    apply keys_apart.
Qed.

(** ** Load *)

(** X14. Load only reads: whatever the storage holds and however it
    answers, Load leaves it as it is, and a second Load right after the
    first changes neither what is shown nor what is stored. *)
Theorem X14_load_only_reads (pathname : string) (attr : option string)
    (wr : World string) (ws : World Script.View) :
  (ls (React.step pathname Load wr) = ls wr ∧
   same_state (React.step pathname Load (React.step pathname Load wr))
              (React.step pathname Load wr)) ∧
  (ls (Script.step attr Load ws) = ls ws ∧
   same_state (Script.step attr Load (Script.step attr Load ws))
              (Script.step attr Load ws)).
Proof.
  unfold same_state. split.
  - open_world wr. exec. simpl.
    destruct md; simpl; try done;
      destruct (it !! React.key pathname) as [c|] eqn:Hk; simpl;
      rewrite ?Hk; simpl; try done;
      destruct (Js.truthy c) eqn:Ht; simpl; rewrite ?Hk, ?Ht; simpl; done.
  - open_world ws. exec. simpl.
    destruct md, v as [bg|]; simpl; try done;
      destruct (it !! Script.LS_KEY attr) as [c|] eqn:Hk; simpl;
      rewrite ?Hk; simpl; try done;
      destruct (Js.truthy c) eqn:Ht; simpl; rewrite ?Hk, ?Ht; simpl;
      try done;
      destruct (css_plain c) eqn:Hp; simpl; rewrite ?Hk, ?Ht, ?Hp; simpl;
      done.
Qed.

(** ** The last operation decides *)

Lemma touches_insert {V} k v (w w' : World V) :
  touches k w w' →
  <[k := v]> (items (ls w')) = <[k := v]> (items (ls w)).
Proof.
  intros [_ _ [-> | [(v' & _ & ->) | ->]]]; [done | |].
  - by rewrite insert_insert_eq.
  - by rewrite insert_delete_eq.
Qed.

Lemma touches_delete {V} k (w w' : World V) :
  touches k w w' →
  delete k (items (ls w')) = delete k (items (ls w)).
Proof.
  intros [_ _ [-> | [(v' & _ & ->) | ->]]]; [done | |].
  - by rewrite delete_insert_eq.
  - by rewrite delete_delete_eq.
Qed.

Lemma touches_writable {V} k (w w' : World V) :
  touches k w w' → writable (ls w') = writable (ls w).
Proof. intros [Hm _ _]. unfold writable. by rewrite Hm. Qed.

(** X15. On a storage that takes writes, what the storage holds after a
    Set with a URL that is not blank does not depend on anything done on
    that page before, and neither does what the page shows: the React page
    shows the URL, the script page the trimmed URL when it is plain. The
    same holds for Clear. *)
Theorem X15_last_operation_decides (pathname : string) (attr : option string)
    (u : string) (es : list Event)
    (wr : World string) (ws : World Script.View) :
  writable (ls wr) = true →
  writable (ls ws) = true →
  has_preview ws = true →
  Js.truthy (Js.trim u) = true →
  let after_r := React.run pathname es wr in
  let after_s := Script.run attr es ws in
  (view (React.step pathname (SetUrl u) after_r) = u ∧
   ls (React.step pathname (SetUrl u) after_r)
     = ls (React.step pathname (SetUrl u) wr) ∧
   view (React.step pathname Clear after_r) = "" ∧
   ls (React.step pathname Clear after_r)
     = ls (React.step pathname Clear wr)) ∧
  ((css_plain (Js.trim u) = true →
    view (Script.step attr (SetUrl u) after_s)
      = Some (Script.BgUrl (Js.trim u))) ∧
   ls (Script.step attr (SetUrl u) after_s)
     = ls (Script.step attr (SetUrl u) ws) ∧
   view (Script.step attr Clear after_s) = Some Script.BgNone ∧
   ls (Script.step attr Clear after_s) = ls (Script.step attr Clear ws)).
Proof.
  intros Hwr Hws Hv Hu after_r after_s.
  pose proof (trim_truthy u Hu) as Hu'.
  pose proof (react_run_touches pathname es wr) as Hr. fold after_r in Hr.
  pose proof (script_run_touches attr es ws) as Hs. fold after_s in Hs.
  assert (Hwr' : writable (ls after_r) = true)
    by by rewrite (touches_writable _ _ _ Hr).
  assert (Hws' : writable (ls after_s) = true)
    by by rewrite (touches_writable _ _ _ Hs).
  assert (Hv' : has_preview after_s = true)
    by (unfold after_s; by rewrite script_run_has_preview).
  split.
  - rewrite !react_set_url, !react_clear by auto using writable_accessible.
    cbn. rewrite (touches_insert _ _ _ _ Hr), (touches_delete _ _ _ Hr).
    by rewrite (touches_mode _ _ _ Hr).
  - rewrite !script_clear by auto using writable_accessible.
    cbn. rewrite (touches_delete _ _ _ Hs), (touches_mode _ _ _ Hs).
    assert (Hview : match view after_s with
                    | Some _ => Some Script.BgNone
                    | None => None
                    end = Some Script.BgNone)
      by (unfold has_preview in Hv'; by destruct (view after_s)).
    destruct (css_plain (Js.trim u)) eqn:Hp.
    + rewrite !script_set_url by done. cbn.
      by rewrite (touches_insert _ _ _ _ Hs), (touches_mode _ _ _ Hs).
    + rewrite !script_set_url_garbled by done. cbn.
      by rewrite (touches_insert _ _ _ _ Hs), (touches_mode _ _ _ Hs).
Qed.

Lemma X15_last_operation_decides_witness :
  let after_r := React.run "/work" [Load; SetUrl "a.png"; Clear] fresh_react in
  let after_s :=
    Script.run (Some "work") [Load; SetUrl "a.png"; Clear] fresh_script in
  (view (React.step "/work" (SetUrl "b.png") after_r) = "b.png" ∧
   ls (React.step "/work" (SetUrl "b.png") after_r)
     = ls (React.step "/work" (SetUrl "b.png") fresh_react) ∧
   view (React.step "/work" Clear after_r) = "" ∧
   ls (React.step "/work" Clear after_r)
     = ls (React.step "/work" Clear fresh_react)) ∧
  (view (Script.step (Some "work") (SetUrl "b.png") after_s)
     = Some (Script.BgUrl "b.png") ∧
   ls (Script.step (Some "work") (SetUrl "b.png") after_s)
     = ls (Script.step (Some "work") (SetUrl "b.png") fresh_script) ∧
   view (Script.step (Some "work") Clear after_s) = Some Script.BgNone ∧
   ls (Script.step (Some "work") Clear after_s)
     = ls (Script.step (Some "work") Clear fresh_script)).
Proof.
  destruct (X15_last_operation_decides "/work" (Some "work") "b.png"
              [Load; SetUrl "a.png"; Clear] fresh_react fresh_script
              eq_refl eq_refl eq_refl eq_refl)
    as [Hreact (Hshown & Hset & Hclear & Hcleared)].
  split; [exact Hreact |].
  split; [apply Hshown; reflexivity |].
  split; [exact Hset |]. split; [exact Hclear | exact Hcleared].
Defined.

(** ** Two reads in flight *)

Lemma react_run_steps p es w :
  accessible (ls w) = true →
  React.run p es w = foldl (λ w e, React.step p e w) w es.
Proof.
  revert w. induction es as [| e es IH]; intros w Hacc; [done |].
  rewrite react_run_step by done. cbn [foldl].
  apply IH. by rewrite react_step_accessible.
Qed.

Lemma two_reads_first (rs : list File) f1 f2 :
  ((rs ++ [f1]) ++ [f2]) !! length rs = Some f1 ∧
  delete (length rs) ((rs ++ [f1]) ++ [f2]) = rs ++ [f2].
Proof.
  rewrite <- app_assoc. cbn [app]. split.
  - by apply list_lookup_middle.
  - apply (delete_middle rs [f2] f1).
Qed.

Lemma two_reads_second (rs : list File) f1 f2 :
  ((rs ++ [f1]) ++ [f2]) !! S (length rs) = Some f2 ∧
  delete (S (length rs)) ((rs ++ [f1]) ++ [f2]) = rs ++ [f1].
Proof.
  assert (Hlen : S (length rs) = length (rs ++ [f1]))
    by (rewrite length_app; cbn; lia).
  rewrite Hlen. split.
  - by apply list_lookup_middle.
  - rewrite (delete_middle (rs ++ [f1]) [] f2). apply app_nil_r.
Qed.

(** X16. Two files are selected one after the other and both reads are in
    flight. On a storage that takes writes, the file whose read completes
    last is the one shown and stored, in either order of completion: the
    order of selection does not count. *)
Theorem X16_last_completed_read_wins (pathname : string)
    (attr : option string) (f1 f2 : File)
    (wr : World string) (ws : World Script.View) :
  readable f1 = true →
  readable f2 = true →
  writable (ls wr) = true →
  writable (ls ws) = true →
  has_preview ws = true →
  let nr := length (readers wr) in
  let ns := length (readers ws) in
  let select := [SelectFile (Some [f1]); SelectFile (Some [f2])] in
  let wr12 := React.run pathname (select ++ [FileLoaded nr; FileLoaded nr]) wr in
  let wr21 :=
    React.run pathname (select ++ [FileLoaded (S nr); FileLoaded nr]) wr in
  let ws12 := Script.run attr (select ++ [FileLoaded ns; FileLoaded ns]) ws in
  let ws21 :=
    Script.run attr (select ++ [FileLoaded (S ns); FileLoaded ns]) ws in
  (React.visible wr12 = dataURL f2 ∧
   stored (React.key pathname) wr12 = Some (dataURL f2) ∧
   React.visible wr21 = dataURL f1 ∧
   stored (React.key pathname) wr21 = Some (dataURL f1)) ∧
  (Script.visible ws12 = dataURL f2 ∧
   stored (Script.LS_KEY attr) ws12 = Some (dataURL f2) ∧
   Script.visible ws21 = dataURL f1 ∧
   stored (Script.LS_KEY attr) ws21 = Some (dataURL f1)).
Proof.
  intros Hf1 Hf2 Hwr Hws Hv. cbn zeta.
  destruct (two_reads_first (readers wr) f1 f2) as [Hr1 Hr1'].
  destruct (two_reads_second (readers wr) f1 f2) as [Hr2 Hr2'].
  destruct (two_reads_first (readers ws) f1 f2) as [Hs1 Hs1'].
  destruct (two_reads_second (readers ws) f1 f2) as [Hs2 Hs2'].
  split.
  - rewrite !react_run_steps by by apply writable_accessible.
    cbn [app foldl].
    rewrite !(react_select pathname (Some [_]) _ _ eq_refl). cbn.
    rewrite (react_file_loaded _ _ f1 (mkWorld _ _ _ _)) by done.
    rewrite (react_file_loaded _ (S _) f2 (mkWorld _ _ _ _)) by done.
    cbn. rewrite Hr1', Hr2'.
    rewrite (react_file_loaded _ _ f2 (mkWorld _ _ _ _));
      [| done | by apply list_lookup_middle | done].
    rewrite (react_file_loaded _ _ f1 (mkWorld _ _ _ _));
      [| done | by apply list_lookup_middle | done].
    unfold stored, React.visible. cbn.
    by rewrite !lookup_insert_eq.
  - cbn [app Script.run].
    rewrite !(script_select attr (Some [_]) _ _ eq_refl). cbn.
    rewrite (script_file_loaded _ _ f1 (mkWorld _ _ _ _)) by done.
    rewrite (script_file_loaded _ (S _) f2 (mkWorld _ _ _ _)) by done.
    cbn. rewrite Hs1', Hs2'.
    rewrite (script_file_loaded _ _ f2 (mkWorld _ _ _ _));
      [| done | done | by apply list_lookup_middle | done].
    rewrite (script_file_loaded _ _ f1 (mkWorld _ _ _ _));
      [| done | done | by apply list_lookup_middle | done].
    unfold stored, Script.visible. cbn.
    by rewrite !lookup_insert_eq.
Qed.

Lemma X16_last_completed_read_wins_witness :
  let select := [SelectFile (Some [png]); SelectFile (Some [jpg])] in
  let wr12 := React.run "/" (select ++ [FileLoaded 0; FileLoaded 0]) fresh_react in
  let wr21 := React.run "/" (select ++ [FileLoaded 1; FileLoaded 0]) fresh_react in
  let ws12 := Script.run None (select ++ [FileLoaded 0; FileLoaded 0]) fresh_script in
  let ws21 := Script.run None (select ++ [FileLoaded 1; FileLoaded 0]) fresh_script in
  (React.visible wr12 = dataURL jpg ∧
   stored (React.key "/") wr12 = Some (dataURL jpg) ∧
   React.visible wr21 = dataURL png ∧
   stored (React.key "/") wr21 = Some (dataURL png)) ∧
  (Script.visible ws12 = dataURL jpg ∧
   stored (Script.LS_KEY None) ws12 = Some (dataURL jpg) ∧
   Script.visible ws21 = dataURL png ∧
   stored (Script.LS_KEY None) ws21 = Some (dataURL png)).
Proof.
  apply (X16_last_completed_read_wins "/" None png jpg fresh_react fresh_script);
    reflexivity.
Defined.

(** ** White space in the URL field *)

Lemma trimEnd_idem s : Js.trimEnd (Js.trimEnd s) = Js.trimEnd s.
Proof.
  induction s as [| c r IH]; [done |]. cbn.
  destruct (Js.trimEnd r) as [| k kept] eqn:Hr.
  - destruct (Js.is_white c) eqn:Hc; [done |]. cbn. by rewrite Hc.
  - cbn in *. by rewrite IH.
Qed.

Lemma trimEnd_head c r :
  Js.is_white c = false → ∃ r', Js.trimEnd (String c r) = String c r'.
Proof.
  intros Hc. cbn. destruct (Js.trimEnd r); rewrite ?Hc; eauto.
Qed.

Lemma trimStart_head s :
  Js.trimStart s = "" ∨
  ∃ c r, Js.trimStart s = String c r ∧ Js.is_white c = false.
Proof.
  induction s as [| c r IH]; [by left |]. cbn.
  destruct (Js.is_white c) eqn:Hc; [done | right; eauto].
Qed.

Lemma trim_idem s : Js.trim (Js.trim s) = Js.trim s.
Proof.
  unfold Js.trim.
  destruct (trimStart_head s) as [-> | (c & r & -> & Hc)]; [done |].
  destruct (trimEnd_head c r Hc) as [r' Hr']. rewrite Hr' at 1.
  cbn [Js.trimStart]. rewrite Hc, <- Hr'. apply trimEnd_idem.
Qed.

Lemma trimStart_blank s : Js.trimStart s = "" ↔ blank s = true.
Proof.
  induction s as [| c r IH]; [done |]. cbn.
  destruct (Js.is_white c); [done |]. cbn. split; discriminate.
Qed.

Lemma trim_blank s : Js.trim s = "" ↔ blank s = true.
Proof.
  rewrite <- trimStart_blank. unfold Js.trim.
  destruct (trimStart_head s) as [-> | (c & r & -> & Hc)]; [done |].
  destruct (trimEnd_head c r Hc) as [r' ->]. split; discriminate.
Qed.

Lemma app_self_nil {A} (l x : list A) : l ++ x = l → x = [].
Proof.
  intros Heq. apply (app_inv_head l). by rewrite app_nil_r.
Qed.

(** X17. White space around the text of the URL field never matters to
    the script: Set with a text and Set with the trimmed text do the same,
    in every world. *)
Theorem X17_script_set_url_ignores_padding (attr : option string)
    (u : string) (w : World Script.View) :
  Script.step attr (SetUrl u) w = Script.step attr (SetUrl (Js.trim u)) w.
Proof.
  rewrite !script_step_handle. cbn [Script.handle].
  unfold Script.onSetUrl. cbn zeta. by rewrite trim_idem.
Qed.

Lemma script_set_url_calls a u w :
  Js.truthy (Js.trim u) = true →
  ∃ l, log (Script.step a (SetUrl u) w) = log w ++ l ∧
       SetItem (Script.LS_KEY a) (Js.trim u) ∈ l.
Proof.
  intros Hu. rewrite script_step_handle. open_world w. exec. rewrite Hu.
  destruct v as [bg|], md, (css_plain (Js.trim u)); simpl;
    rewrite <- ?app_assoc; eexists; (split; [reflexivity |]);
    repeat constructor.
Qed.

Lemma react_set_url_calls p u w :
  Js.truthy u = true →
  ∃ l, log (React.step p (SetUrl u) w) = log w ++ l ∧
       SetItem (React.key p) u ∈ l.
Proof.
  intros Hu. open_world w. exec. rewrite Hu.
  destruct md; simpl; rewrite <- ?app_assoc; eexists;
    (split; [reflexivity |]); repeat constructor.
Qed.

Lemma log_grew {V} (w w' : World V) l x :
  log w' = log w ++ l → x ∈ l → w' ≠ w.
Proof.
  intros Hl Hx ->. symmetry in Hl. apply app_self_nil in Hl. subst.
  by apply elem_of_nil in Hx.
Qed.

(** X18. The script's Set button does nothing exactly when the field holds
    white space only (or nothing); the Set button of [ImageUploader] does
    nothing exactly when its field is empty. In every other case the call
    [setItem] with the page's key and the text (trimmed, in the script) is
    among the calls the click adds, whatever the storage answers. *)
Theorem X18_set_url_does_nothing_iff (pathname : string)
    (attr : option string) (u : string)
    (wr : World string) (ws : World Script.View) :
  (Script.step attr (SetUrl u) ws = ws ↔ blank u = true) ∧
  (blank u = false →
   ∃ l, log (Script.step attr (SetUrl u) ws) = log ws ++ l ∧
        SetItem (Script.LS_KEY attr) (Js.trim u) ∈ l) ∧
  (React.step pathname (SetUrl u) wr = wr ↔ u = "") ∧
  (u ≠ "" →
   ∃ l, log (React.step pathname (SetUrl u) wr) = log wr ++ l ∧
        SetItem (React.key pathname) u ∈ l).
Proof.
  assert (Hs : blank u = false → Js.truthy (Js.trim u) = true).
  { intros Hb. apply truthy_true. intros Ht%trim_blank. congruence. }
  split_and!.
  - rewrite <- trim_blank. split; [| apply script_set_url_blank].
    intros Heq. apply trim_blank.
    destruct (blank u) eqn:Hb; [done | exfalso].
    destruct (script_set_url_calls attr u ws (Hs eq_refl)) as (l & Hl & Hin).
    by eapply log_grew.
  - intros Hb. by apply script_set_url_calls, Hs.
  - split; [| by intros ->].
    intros Heq. apply truthy_false.
    destruct (Js.truthy u) eqn:Hu; [exfalso | done].
    destruct (react_set_url_calls pathname u wr Hu) as (l & Hl & Hin).
    by eapply log_grew.
  - intros Hu%truthy_true. by apply react_set_url_calls.
Qed.

Lemma X18_set_url_does_nothing_iff_witness :
  (∃ l, log (Script.step (Some "work") (SetUrl " a.png") fresh_script)
          = log fresh_script ++ l ∧
        SetItem (Script.LS_KEY (Some "work")) (Js.trim " a.png") ∈ l) ∧
  (∃ l, log (React.step "/work" (SetUrl " a.png") fresh_react)
          = log fresh_react ++ l ∧
        SetItem (React.key "/work") " a.png" ∈ l).
Proof.
  destruct (X18_set_url_does_nothing_iff "/work" (Some "work") " a.png"
              fresh_react fresh_script) as (_ & Hscript & _ & Hreact).
  split; [apply Hscript; reflexivity | apply Hreact; discriminate].
Defined.

(** ** What is shown is what is stored *)

Lemma react_step_sync p e w :
  writable (ls w) = true →
  in_sync (React.visible w) (stored (React.key p) w) →
  in_sync (React.visible (React.step p e w))
          (stored (React.key p) (React.step p e w)).
Proof.
  intros Hw Hs. unfold in_sync in *.
  destruct e as [| files | i | text |]; open_world w;
    destruct md; try discriminate; exec; simpl.
  - destruct (it !! React.key p) as [c|] eqn:Hk; simpl; rewrite ?Hk; [| done].
    destruct (Js.truthy c) eqn:Ht; simpl; rewrite ?Hk; [done |].
    by apply truthy_false in Ht.
  - by destruct (first_file files).
  - destruct (rs !! i) as [f|]; simpl; [| done].
    destruct (readable f); simpl; [| done]. by rewrite lookup_insert_eq.
  - destruct (Js.truthy text); simpl; [| done]. by rewrite lookup_insert_eq.
  - by rewrite lookup_delete_eq.
Qed.

Lemma script_step_sync a e w :
  writable (ls w) = true →
  has_preview w = true →
  plain_event e = true →
  plain_entry (stored (Script.LS_KEY a) w) = true →
  in_sync (Script.visible w) (stored (Script.LS_KEY a) w) →
  in_sync (Script.visible (Script.step a e w))
          (stored (Script.LS_KEY a) (Script.step a e w)).
Proof.
  intros Hw Hv He Hpe Hs. unfold in_sync in *. rewrite script_step_handle.
  destruct e as [| files | i | text |]; open_world w;
    destruct md, v as [bg|]; try discriminate; exec.
  - destruct (it !! Script.LS_KEY a) as [c|] eqn:Hk; simpl; rewrite ?Hk;
      [| done].
    cbn in Hpe.
    destruct (Js.truthy c) eqn:Ht; simpl; rewrite ?Hk, ?Ht, ?Hpe; simpl;
      rewrite ?Hk; [done |].
    by apply truthy_false in Ht.
  - by destruct (first_file files).
  - destruct (rs !! i) as [f|]; exec; [| done].
    destruct (readable f); exec; [| done].
    rewrite truthy_dataURL, dataURL_plain. simpl.
    by rewrite lookup_insert_eq.
  - cbn in He.
    destruct (Js.truthy (Js.trim text)) eqn:Ht; simpl; rewrite ?Ht, ?He;
      simpl; [| done].
    by rewrite lookup_insert_eq.
  - simpl. by rewrite lookup_delete_eq.
Qed.

Lemma react_load_sync p w :
  writable (ls w) = true →
  in_sync (React.visible (React.step p Load w))
          (stored (React.key p) (React.step p Load w)).
Proof.
  intros Hw. unfold in_sync.
  open_world w; destruct md; try discriminate; exec; simpl.
  destruct (it !! React.key p) as [c|] eqn:Hk; simpl; rewrite ?Hk; [| done].
  destruct (Js.truthy c) eqn:Ht; simpl; rewrite ?Hk; [done |].
  by apply truthy_false in Ht.
Qed.

Lemma script_load_sync a w :
  writable (ls w) = true →
  has_preview w = true →
  plain_entry (stored (Script.LS_KEY a) w) = true →
  in_sync (Script.visible (Script.step a Load w))
          (stored (Script.LS_KEY a) (Script.step a Load w)).
Proof.
  intros Hw Hv Hpe. unfold in_sync. rewrite script_step_handle.
  open_world w; destruct md, v as [bg|]; try discriminate; exec; simpl.
  destruct (it !! Script.LS_KEY a) as [c|] eqn:Hk; simpl; rewrite ?Hk; [| done].
  cbn in Hpe.
  destruct (Js.truthy c) eqn:Ht; simpl; rewrite ?Hk, ?Ht, ?Hpe; simpl;
    rewrite ?Hk; [done |].
  by apply truthy_false in Ht.
Qed.

Lemma script_step_writable a e w :
  writable (ls (Script.step a e w)) = writable (ls w).
Proof.
  unfold writable. by rewrite (touches_mode _ _ _ (script_step_touches a e w)).
Qed.

(** X19. On a storage that takes writes, once a page has loaded, what it
    shows is what is stored for it, after every sequence of events: the
    entry's text when there is an entry, nothing when there is none. For
    the React page this is for sequences in which no Load comes while a
    file read is in flight; for the script, which puts the URL between the
    quotes of [url("...")] as it is, for an entry and for URL texts that
    are plain. *)
Theorem X19_shown_is_stored (pathname : string) (attr : option string)
    (es : list Event) (wr : World string) (ws : World Script.View) :
  writable (ls wr) = true →
  writable (ls ws) = true →
  has_preview ws = true →
  (loads_quiet (length (readers wr)) (Load :: es) = true →
   in_sync (React.visible (React.run pathname (Load :: es) wr))
           (stored (React.key pathname)
                   (React.run pathname (Load :: es) wr))) ∧
  (forallb plain_event es = true →
   plain_entry (stored (Script.LS_KEY attr) ws) = true →
   in_sync (Script.visible (Script.run attr (Load :: es) ws))
           (stored (Script.LS_KEY attr) (Script.run attr (Load :: es) ws))).
Proof.
  intros Hwr Hws Hv. split.
  - intros _.
    rewrite react_run_step by by apply writable_accessible.
    pose proof (react_load_sync pathname wr Hwr) as Hs.
    assert (Hw : writable (ls (React.step pathname Load wr)) = true)
      by by rewrite react_step_writable.
    revert Hs Hw. generalize (React.step pathname Load wr).
    induction es as [| e es IH]; intros w Hs Hw; [done |].
    rewrite react_run_step by by apply writable_accessible.
    apply IH; [by apply react_step_sync | by rewrite react_step_writable].
  - intros Hpl Hpe. cbn [Script.run].
    pose proof (script_load_sync attr ws Hws Hv Hpe) as Hs.
    assert (Hw : writable (ls (Script.step attr Load ws)) = true)
      by by rewrite script_step_writable.
    assert (Hv' : has_preview (Script.step attr Load ws) = true)
      by by rewrite script_step_has_preview.
    assert (Hpe' : plain_entry (stored (Script.LS_KEY attr)
                                  (Script.step attr Load ws)) = true)
      by by apply script_step_plain_entry.
    revert Hs Hw Hv' Hpe' Hpl. generalize (Script.step attr Load ws).
    induction es as [| e es IH]; intros w Hs Hw Hv' Hpe' Hpl; [done |].
    cbn in Hpl. apply andb_true_iff in Hpl as [He Hes].
    cbn [Script.run].
    apply IH; [by apply script_step_sync | by rewrite script_step_writable
              | by rewrite script_step_has_preview
              | by apply script_step_plain_entry | done].
Qed.

Lemma X19_shown_is_stored_witness :
  in_sync
    (React.visible
       (React.run "/work" [Load; SetUrl "a.png"; Clear; SetUrl " b.png"]
          fresh_react))
    (stored (React.key "/work")
       (React.run "/work" [Load; SetUrl "a.png"; Clear; SetUrl " b.png"]
          fresh_react)) ∧
  in_sync
    (Script.visible
       (Script.run (Some "work") [Load; SetUrl "a.png"; Clear; SetUrl " b.png"]
          fresh_script))
    (stored (Script.LS_KEY (Some "work"))
       (Script.run (Some "work") [Load; SetUrl "a.png"; Clear; SetUrl " b.png"]
          fresh_script)).
Proof.
  destruct (X19_shown_is_stored "/work" (Some "work")
              [SetUrl "a.png"; Clear; SetUrl " b.png"] fresh_react fresh_script
              eq_refl eq_refl eq_refl) as [Hreact Hscript].
  split; [apply Hreact | apply Hscript]; reflexivity.
Defined.

(** ** The style text of the preview *)




